(** * Rosetta construction endpoints and token-contract compliance check

    A shallow embedding of the request handlers of the Rosetta construction
    router (preprocess, metadata, hash, parse, submit, payloads, combine,
    and derive further down), of the microblock router and of the
    token-contract handler with its SIP-009/SIP-010 compliance test,
    followed by the properties established about them.

    Handlers are Express callbacks: they answer through [res.json], await
    external services and may leave by an uncaught exception.  A handler is
    embedded as a value of [Proc], the tree of the calls it makes, so that
    the order of replies and external calls is part of what is proved. *)

From Stdlib Require Import String Ascii List ZArith Bool Lia.
From Stdlib Require Import Strings.Byte.
Import ListNotations.
Open Scope string_scope.
Open Scope Z_scope.

(** ** JavaScript values as the handlers use them *)

Module Js.

(** Outcome of a call that sits in (or escapes from) a [try] block. *)
Inductive Result (A : Type) : Type :=
| Returned (a : A)
| Thrown.
Arguments Returned {A} a.
Arguments Thrown {A}.

(** [!s] is false exactly for a present, non-empty string. *)
Definition truthy_string (s : option string) : bool :=
  match s with
  | Some EmptyString => false
  | Some _ => true
  | None => false
  end.

(** JSON numbers are carried as integers; [0] and [undefined] are falsy. *)
Definition truthy_number (n : option Z) : bool :=
  match n with
  | Some n => negb (n =? 0)
  | None => false
  end.

Fixpoint drop (n : nat) (s : string) : string :=
  match n, s with
  | O, _ => s
  | S n', String _ s' => drop n' s'
  | S _, EmptyString => EmptyString
  end.

Fixpoint take (n : nat) (s : string) : string :=
  match n, s with
  | O, _ => EmptyString
  | S n', String c s' => String c (take n' s')
  | S _, EmptyString => EmptyString
  end.

(** [s.startsWith(p)] *)
Definition startsWith (p s : string) : bool := String.prefix p s.

(** [s.slice(n)] for a non-negative [n]. *)
Definition slice_from (n : nat) (s : string) : string := drop n s.

(** [s.slice(0, -k)] for a positive [k]. *)
Definition slice_until_last (k : nat) (s : string) : string :=
  take (String.length s - k) s.

(** [s.replace(pat, rep)] with a string pattern: first occurrence only. *)
Fixpoint replace (pat rep s : string) : string :=
  if String.prefix pat s then rep ++ drop (String.length pat) s
  else match s with
       | EmptyString => EmptyString
       | String c s' => String c (replace pat rep s')
       end.

(** [a === b] on values of type [string | undefined]. *)
Definition opt_string_eqb (a b : option string) : bool :=
  match a, b with
  | Some x, Some y => String.eqb x y
  | None, None => true
  | _, _ => false
  end.

End Js.

Import Js.

(** ** Data model *)

Definition Buffer := list byte.

(** The entries of the [RosettaErrors] catalogue the handlers answer with. *)
Inductive RosettaError : Type :=
| invalidPublicKey | invalidCurveType | invalidOperation
| invalidCurrencySymbol | invalidCurrencyDecimals | invalidFee
| invalidTransactionType | invalidSender | invalidRecipient
| invalidAmount | invalidFees | emptyPublicKey | needOnePublicKey
| noSignatures | needOnlyOneSignature | invalidSignature
| signatureNotVerified | transactionNotSigned
| invalidTransactionString | invalidParams.

(** Verdict of [rosettaValidateRequest]. *)
Record ValidSchema : Type := {
  valid : bool;
  error : option string
}.

Record RosettaCurrency : Type := {
  cur_symbol : string;
  cur_decimals : Z
}.

Record RosettaAmount : Type := {
  amt_value : string;
  amt_currency : RosettaCurrency
}.

Definition RosettaMaxFeeAmount := RosettaAmount.

Record RosettaOperation : Type := {
  op_index : Z;
  op_type : string;
  op_status : option string;
  op_account : option string;
  op_amount : option RosettaAmount
}.

Record RosettaOptions : Type := {
  sender_address : option string;
  type_ : option string;
  status : option string;
  token_transfer_recipient_address : option string;
  amount : option string;
  symbol : option string;
  decimals : option Z;
  gas_limit : option Z;
  gas_price : option Z;
  suggested_fee_multiplier : option Z;
  max_fee : option string;
  fee : option string
}.

Record RosettaPublicKey : Type := {
  pk_hex_bytes : string;
  pk_curve_type : string
}.

Record NetworkIdentifier : Type := {
  blockchain : string;
  network : string
}.

(** *** Transactions of the signing library *)

Record MessageSignature : Type := {
  data : option string
}.

Record TransactionAuthField : Type := {
  field_contents : string
}.

(** [isSingleSig c] holds when [c] has a [signature] member. *)
Inductive SpendingCondition : Type :=
| SingleSig (signer : string) (sc_nonce sc_fee : Z)
            (signature : MessageSignature)
| MultiSig (signer : string) (sc_nonce sc_fee : Z)
           (fields : list TransactionAuthField) (signaturesRequired : Z).

Definition isSingleSig (c : SpendingCondition) : bool :=
  match c with
  | SingleSig _ _ _ _ => true
  | MultiSig _ _ _ _ _ => false
  end.

Record Authorization : Type := {
  authType : Z;
  spendingCondition : option SpendingCondition
}.

Record StacksTransaction : Type := {
  version : Z;
  auth : Authorization;
  payload : string
}.

(** [transaction.auth.spendingCondition.signature = s] on a single-signature
    condition. *)
Definition set_signature (s : MessageSignature) (t : StacksTransaction)
  : StacksTransaction :=
  match spendingCondition (auth t) with
  | Some (SingleSig who n f _) =>
      {| version := version t;
         auth := {| authType := authType (auth t);
                    spendingCondition := Some (SingleSig who n f s) |};
         payload := payload t |}
  | _ => t
  end.

Inductive AuthType : Type := Standard | Sponsored.

Record UnsignedTokenTransferOptions : Type := {
  tt_recipient : string;
  tt_amount : Z;
  tt_fee : Z;
  tt_publicKey : string;
  tt_nonce : Z
}.

(** *** External services *)

Record AccountInfo : Type := {
  nonce : Z
}.

Record DbBlock : Type := {
  block_hash : string
}.

Inductive FoundOrNot (A : Type) : Type :=
| Found (result : A)
| NotFound.
Arguments Found {A} result.
Arguments NotFound {A}.

(** *** Request bodies *)

Record PreprocessMetadata : Type := {
  md_gas_limit : option Z;
  md_gas_price : option Z;
  md_suggested_fee_multiplier : option Z
}.

Record PreprocessRequest : Type := {
  pre_operations : list RosettaOperation;
  pre_metadata : option PreprocessMetadata;
  pre_max_fee : option (list RosettaMaxFeeAmount);
  pre_suggested_fee_multiplier : option Z
}.

Record MetadataRequest : Type := {
  meta_network_identifier : NetworkIdentifier;
  meta_options : RosettaOptions;
  meta_public_keys : option (list RosettaPublicKey)
}.

Record HashRequest : Type := {
  signed_transaction : string
}.

Record ParseRequest : Type := {
  parse_transaction : string;
  parse_signed : bool
}.

Record SubmitRequest : Type := {
  submit_signed_transaction : string
}.

Record PayloadsRequest : Type := {
  pay_operations : list RosettaOperation;
  pay_public_keys : option (list RosettaPublicKey)
}.

Record RosettaSignature : Type := {
  signing_payload_hex_bytes : string;
  sig_public_key : RosettaPublicKey;
  sig_hex_bytes : string
}.

Record CombineRequest : Type := {
  unsigned_transaction : string;
  signatures : list RosettaSignature
}.

(** *** Response bodies *)

Record SigningPayload : Type := {
  sp_address : string;
  sp_hex_bytes : string;
  sp_signature_type : string
}.

Inductive ResponseBody : Type :=
| ErrorBody (e : RosettaError)
| SchemaErrorBody (v : ValidSchema)
| PreprocessResponse (options : RosettaOptions)
                     (required_public_keys : list (option string))
| MetadataResponse (options : RosettaOptions) (account_sequence : Z)
                   (recent_block_hash : option string)
| HashResponse (transaction_identifier : string)
| ParseResponse (operations : list RosettaOperation)
                (account_identifier_signers : option (list string))
| SubmitResponse (transaction_identifier : string)
| PayloadResponse (unsigned_tx : string) (payloads_out : list SigningPayload)
| CombineResponse (signed_tx : string).

(** ** Handlers as call trees

    [Json st b k]: the handler calls [res.status(st).json(b)] and goes on
    with [k]; a [return] right after the call is [Json st b Return_], and a
    call that is not followed by a [return] has the rest of the handler as
    its [k].  [Return_] is the end of the callback, [Throw_] an exception
    that leaves it.  The remaining nodes are the awaited external calls,
    each with the continuation that receives the answer. *)
Inductive Proc : Type :=
| Return_
| Throw_
| Json (st : Z) (body : ResponseBody) (k : Proc)
| GetAccount (address : string) (k : AccountInfo -> Proc)
| GetCurrentBlock (k : FoundOrNot DbBlock -> Proc)
| SendTransaction (buffer : Buffer) (k : Result string -> Proc)
| MakeUnsignedSTXTokenTransfer (opts : UnsignedTokenTransferOptions)
                               (k : StacksTransaction -> Proc).

(** [res.status(400).json(RosettaErrors.e); return;] *)
Definition reject (e : RosettaError) : Proc :=
  Json 400 (ErrorBody e) Return_.

(** [res.status(400).json(makeRosettaError(valid)); return;] *)
Definition reject_schema (v : ValidSchema) : Proc :=
  Json 400 (SchemaErrorBody v) Return_.

(** *** Running a handler against the outside world *)

Record World : Type := {
  w_getAccount : string -> Result AccountInfo;
  w_getCurrentBlock : Result (FoundOrNot DbBlock);
  w_sendTransaction : Buffer -> Result string;
  w_makeUnsignedSTXTokenTransfer :
    UnsignedTokenTransferOptions -> Result StacksTransaction
}.

(** [Replied st b] records a reply sent by [res.status(st).json(b)]. *)
Inductive Event : Type :=
| Replied (st : Z) (body : ResponseBody)
| AskedAccount (address : string)
| AskedCurrentBlock
| Broadcast (buffer : Buffer)
| BuiltTransfer (opts : UnsignedTokenTransferOptions).

Inductive Outcome : Type := Finished | Crashed.

(** The events of one invocation from a point where a reply has ([sent])
    or has not been sent yet, in order, and how it ended.  Express sends
    the first reply; a [res.json] on a response that has been replied to
    throws, the headers being sent already, and no handler catches that.
    A rejected promise that the handler does not catch ends the invocation
    as well. *)
Fixpoint run_from (sent : bool) (w : World) (p : Proc)
  : list Event * Outcome :=
  match p with
  | Return_ => ([], Finished)
  | Throw_ => ([], Crashed)
  | Json st b k =>
      if sent then ([], Crashed)
      else let (t, o) := run_from true w k in (Replied st b :: t, o)
  | GetAccount a k =>
      match w_getAccount w a with
      | Returned i =>
          let (t, o) := run_from sent w (k i) in (AskedAccount a :: t, o)
      | Thrown => ([AskedAccount a], Crashed)
      end
  | GetCurrentBlock k =>
      match w_getCurrentBlock w with
      | Returned b =>
          let (t, o) := run_from sent w (k b) in (AskedCurrentBlock :: t, o)
      | Thrown => ([AskedCurrentBlock], Crashed)
      end
  | SendTransaction buf k =>
      let (t, o) := run_from sent w (k (w_sendTransaction w buf)) in
      (Broadcast buf :: t, o)
  | MakeUnsignedSTXTokenTransfer opts k =>
      match w_makeUnsignedSTXTokenTransfer w opts with
      | Returned tx =>
          let (t, o) := run_from sent w (k tx) in (BuiltTransfer opts :: t, o)
      | Thrown => ([BuiltTransfer opts], Crashed)
      end
  end.

(** One invocation of a handler. *)
Definition run (w : World) (p : Proc) : list Event * Outcome :=
  run_from false w p.

Definition is_network_event (e : Event) : bool :=
  match e with
  | AskedAccount _ | AskedCurrentBlock | Broadcast _ => true
  | _ => false
  end.

Definition replies (t : list Event) : list (Z * ResponseBody) :=
  flat_map (fun e => match e with Replied st b => [(st, b)] | _ => [] end) t.

(** ** Helpers the router imports

    The functions of [helpers], [rosetta-helpers], [rosetta-constants] and
    of the transaction library that the handlers call.  They are not part
    of the router; the handlers are embedded over any implementation of
    them. *)
Class Helpers : Type := {
  BaseTx : Type;
  has0xPrefix : string -> bool;
  hexToBuffer : string -> Result Buffer;
  isValidC32Address : string -> bool;
  RosettaConstants_symbol : string;
  RosettaConstants_decimals : Z;
  isSymbolSupported : list RosettaOperation -> bool;
  isDecimalsSupported : list RosettaOperation -> bool;
  getOptionsFromOperations : list RosettaOperation -> option RosettaOptions;
  publicKeyToBitcoinAddress : string -> string -> Result (option string);
  bitcoinAddressToSTXAddress : string -> Result string;
  rawTxToStacksTransaction : string -> Result StacksTransaction;
  rawTxToBaseTx : string -> Result BaseTx;
  getOperations : BaseTx -> Result (list RosettaOperation);
  getSigners : StacksTransaction -> Result (list string);
  isSignedTransaction : StacksTransaction -> bool;
  makePresignHash : StacksTransaction -> option string;
  verifySignature : string -> string -> MessageSignature -> bool;
  deserializeTransaction : Buffer -> Result StacksTransaction;
  txid : StacksTransaction -> string;
  serialize : StacksTransaction -> Buffer;
  toString_hex : Buffer -> string;
  createMessageSignature : string -> Result MessageSignature;
  emptyMessageSignature : MessageSignature;
  sigHash : StacksTransaction -> string;
  makeSigHashPreSign : string -> AuthType -> Z -> Z -> string;
  BN : string -> Z
}.

(** ** The construction router

    Every handler starts by awaiting [rosettaValidateRequest(req.originalUrl,
    req.body)]; the verdict is the first argument [v] of its embedding, the
    request body the second. *)

Section Router.

Context {H : Helpers}.

(** [if (!has0xPrefix(s)) s = '0x' + s;] *)
Definition with0x (s : string) : string :=
  if has0xPrefix s then s else "0x" ++ s.

(** *** /hash *)

Definition hash (v : ValidSchema) (request : HashRequest) : Proc :=
  if negb (valid v) then reject_schema v
  else
    let signed_transaction' := with0x (signed_transaction request) in
    match hexToBuffer signed_transaction' with
    | Thrown => reject invalidTransactionString
    | Returned buffer =>
        match deserializeTransaction buffer with
        | Thrown => Throw_
        | Returned transaction =>
            let hash := txid transaction in
            let hashResponse := HashResponse ("0x" ++ hash) in
            match spendingCondition (auth transaction) with
            | None => reject transactionNotSigned
            | Some (SingleSig _ _ _ signature) =>
                if negb (truthy_string (data signature))
                   || opt_string_eqb (data emptyMessageSignature)
                                     (data signature)
                then reject transactionNotSigned
                else Json 200 hashResponse Return_
            | Some (MultiSig _ _ _ fields _) =>
                if Nat.eqb (List.length fields) 0
                then reject transactionNotSigned
                else Json 200 hashResponse Return_
            end
        end
    end.

(** *** /preprocess *)

Definition set_gas_limit (x : option Z) (o : RosettaOptions) : RosettaOptions :=
  {| sender_address := sender_address o; type_ := type_ o;
     status := status o;
     token_transfer_recipient_address := token_transfer_recipient_address o;
     amount := amount o; symbol := symbol o; decimals := decimals o;
     gas_limit := x; gas_price := gas_price o;
     suggested_fee_multiplier := suggested_fee_multiplier o;
     max_fee := max_fee o; fee := fee o |}.

Definition set_gas_price (x : option Z) (o : RosettaOptions) : RosettaOptions :=
  {| sender_address := sender_address o; type_ := type_ o;
     status := status o;
     token_transfer_recipient_address := token_transfer_recipient_address o;
     amount := amount o; symbol := symbol o; decimals := decimals o;
     gas_limit := gas_limit o; gas_price := x;
     suggested_fee_multiplier := suggested_fee_multiplier o;
     max_fee := max_fee o; fee := fee o |}.

Definition set_suggested_fee_multiplier (x : option Z) (o : RosettaOptions)
  : RosettaOptions :=
  {| sender_address := sender_address o; type_ := type_ o;
     status := status o;
     token_transfer_recipient_address := token_transfer_recipient_address o;
     amount := amount o; symbol := symbol o; decimals := decimals o;
     gas_limit := gas_limit o; gas_price := gas_price o;
     suggested_fee_multiplier := x;
     max_fee := max_fee o; fee := fee o |}.

Definition set_max_fee (x : option string) (o : RosettaOptions)
  : RosettaOptions :=
  {| sender_address := sender_address o; type_ := type_ o;
     status := status o;
     token_transfer_recipient_address := token_transfer_recipient_address o;
     amount := amount o; symbol := symbol o; decimals := decimals o;
     gas_limit := gas_limit o; gas_price := gas_price o;
     suggested_fee_multiplier := suggested_fee_multiplier o;
     max_fee := x; fee := fee o |}.

(** The block guarded by [if (req.body.metadata)]. *)
Definition apply_metadata (req : PreprocessRequest) (options : RosettaOptions)
  : RosettaOptions :=
  match pre_metadata req with
  | None => options
  | Some md =>
      let options :=
        if truthy_number (md_gas_limit md)
        then set_gas_limit (md_gas_limit md) options else options in
      let options :=
        if truthy_number (md_gas_price md)
        then set_gas_price (md_gas_price md) options else options in
      if truthy_number (pre_suggested_fee_multiplier req)
      then set_suggested_fee_multiplier (pre_suggested_fee_multiplier req)
                                        options
      else options
  end.

Definition preprocess_response (options : RosettaOptions) : Proc :=
  Json 200 (PreprocessResponse options [sender_address options]) Return_.

(** An empty [max_fee] array is truthy and its first entry [undefined]:
    reading [max_fee.currency] throws. *)
Definition preprocess (v : ValidSchema) (req : PreprocessRequest) : Proc :=
  if negb (valid v) then reject_schema v
  else
    let operations := pre_operations req in
    if negb (Nat.eqb (List.length operations) 3)
    then reject invalidOperation
    else if negb (isSymbolSupported operations)
    then reject invalidCurrencySymbol
    else if negb (isDecimalsSupported operations)
    then reject invalidCurrencyDecimals
    else
      match getOptionsFromOperations operations with
      | None => reject invalidOperation
      | Some options =>
          let options := apply_metadata req options in
          match pre_max_fee req with
          | None => preprocess_response options
          | Some [] => Throw_
          | Some (max_fee0 :: _) =>
              if String.eqb (cur_symbol (amt_currency max_fee0))
                            RosettaConstants_symbol
                 && (cur_decimals (amt_currency max_fee0)
                     =? RosettaConstants_decimals)
              then preprocess_response
                     (set_max_fee (Some (amt_value max_fee0)) options)
              else reject invalidFee
          end
      end.

(** *** /metadata *)

(** [publicKey.hex_bytes] after the prefix has been taken off. *)
Definition strip_key_prefix (hex_bytes : string) : string :=
  if has0xPrefix hex_bytes then replace "0x" "" hex_bytes else hex_bytes.

(** The address the handler derives from a public key, inside its [try]:
    [Thrown] when one of the two conversions throws, [Returned None] when
    the first one answers [undefined]. *)
Definition derived_address (publicKey : RosettaPublicKey) (net : string)
  : Result (option string) :=
  match publicKeyToBitcoinAddress
          (strip_key_prefix (pk_hex_bytes publicKey)) net with
  | Thrown => Thrown
  | Returned None => Returned None
  | Returned (Some btcAddress) =>
      match bitcoinAddressToSTXAddress btcAddress with
      | Thrown => Thrown
      | Returned stxAddress => Returned (Some stxAddress)
      end
  end.

(** The two lookups and the reply that end a metadata call. *)
Definition metadata_lookup (options : RosettaOptions)
           (recipientAddress : string) : Proc :=
  GetAccount recipientAddress (fun accountInfo =>
    let nonce := nonce accountInfo in
    GetCurrentBlock (fun blockQuery =>
      let recentBlockHash :=
        match blockQuery with
        | Found b => Some (block_hash b)
        | NotFound => None
        end in
      Json 200 (MetadataResponse options nonce recentBlockHash) Return_)).

(** The handler from the test on the supplied public keys on. *)
Definition metadata_key_stage (request : MetadataRequest)
           (recipientAddress : string) : Proc :=
  let options := meta_options request in
  match meta_public_keys request with
  | Some (publicKey :: _) =>
      match derived_address publicKey
                            (network (meta_network_identifier request)) with
      | Thrown => reject invalidPublicKey
      | Returned None => reject invalidPublicKey
      | Returned (Some stxAddress) =>
          if negb (opt_string_eqb (Some stxAddress)
                                  (sender_address options))
          then reject invalidPublicKey
          else metadata_lookup options recipientAddress
      end
  | _ => metadata_lookup options recipientAddress
  end.

Definition metadata (v : ValidSchema) (request : MetadataRequest) : Proc :=
  if negb (valid v) then reject_schema v
  else
    let options := meta_options request in
    if negb (opt_string_eqb (type_ options) (Some "token_transfer"))
    then reject invalidTransactionType
    else if match sender_address options with
            | None | Some EmptyString => false
            | Some a => negb (isValidC32Address a)
            end
    then reject invalidSender
    else if negb (opt_string_eqb (symbol options)
                                 (Some RosettaConstants_symbol))
    then reject invalidCurrencySymbol
    else
      let recipientAddress := token_transfer_recipient_address options in
      if negb match decimals options with
              | Some d => d =? RosettaConstants_decimals
              | None => false
              end
      then reject invalidCurrencyDecimals
      else
        match recipientAddress with
        | None => reject invalidRecipient
        | Some recipientAddress =>
            if negb (isValidC32Address recipientAddress)
            then reject invalidRecipient
            else metadata_key_stage request recipientAddress
        end.

(** *** /parse *)

Definition parse (v : ValidSchema) (req : ParseRequest) : Proc :=
  if negb (valid v) then reject_schema v
  else
    let inputTx := with0x (parse_transaction req) in
    let signed := parse_signed req in
    match rawTxToStacksTransaction inputTx with
    | Thrown => Throw_
    | Returned transaction =>
        let checkSigned := isSignedTransaction transaction in
        if negb (Bool.eqb signed checkSigned) then reject invalidParams
        else
          match rawTxToBaseTx inputTx with
          | Thrown => Return_
          | Returned baseTx =>
              match getOperations baseTx with
              | Thrown => Return_
              | Returned operations =>
                  if signed then
                    match getSigners transaction with
                    | Thrown => Return_
                    | Returned signers =>
                        Json 200 (ParseResponse operations (Some signers))
                             Return_
                    end
                  else Json 200 (ParseResponse operations None) Return_
              end
          end
    end.

(** *** /submit *)

Definition submit (v : ValidSchema) (req : SubmitRequest) : Proc :=
  if negb (valid v) then reject_schema v
  else
    let transaction := with0x (submit_signed_transaction req) in
    match hexToBuffer transaction with
    | Thrown => reject invalidTransactionString
    | Returned buffer =>
        SendTransaction buffer (fun submitResult =>
          match submitResult with
          | Returned txId => Json 200 (SubmitResponse txId) Return_
          | Thrown => Json 400 (ErrorBody invalidTransactionString) Return_
          end)
    end.

(** *** /payloads *)

(** [new BN(n)] of a number [n]: the constructor asserts that the
    magnitude of the number is below 2^53, and throws otherwise. *)
Definition BN_of_number (n : Z) : Result Z :=
  if Z.abs n <? 2 ^ 53 then Returned n else Thrown.

(** [accountInfo.nonce ? new BN(accountInfo.nonce) : new BN(0)] *)
Definition nonce_BN (accountInfo : AccountInfo) : Result Z :=
  if negb (nonce accountInfo =? 0) then BN_of_number (nonce accountInfo)
  else BN_of_number 0.

(** The key list is tested for a length other than one after the account
    lookup; [publicKeys[0]] of an empty list could not be read, a case the
    length test leaves no way to.  The nonce is turned into a [BN] where
    the transfer options are put together, and again for the presign
    hash. *)
Definition payloads (v : ValidSchema) (req : PayloadsRequest) : Proc :=
  if negb (valid v) then reject_schema v
  else
    match getOptionsFromOperations (pay_operations req) with
    | None => reject invalidOperation
    | Some options =>
    match amount options with
    | None | Some EmptyString => reject invalidAmount
    | Some amount =>
    match fee options with
    | None | Some EmptyString => reject invalidFees
    | Some fees =>
    match pay_public_keys req with
    | None => reject emptyPublicKey
    | Some publicKeys =>
    match token_transfer_recipient_address options with
    | None | Some EmptyString => reject invalidRecipient
    | Some recipientAddress =>
    match sender_address options with
    | None | Some EmptyString => reject invalidSender
    | Some senderAddress =>
        GetAccount senderAddress (fun accountInfo =>
          if negb (Nat.eqb (List.length publicKeys) 1)
          then reject needOnePublicKey
          else
            match publicKeys with
            | [] => Throw_
            | publicKey0 :: _ =>
                if negb (String.eqb (pk_curve_type publicKey0) "secp256k1")
                then reject invalidCurveType
                else
                  match nonce_BN accountInfo with
                  | Thrown => Throw_
                  | Returned nonce' =>
                  let tokenTransferOptions :=
                    {| tt_recipient := recipientAddress;
                       tt_amount := BN amount;
                       tt_fee := BN fees;
                       tt_publicKey := pk_hex_bytes publicKey0;
                       tt_nonce := nonce' |} in
                  MakeUnsignedSTXTokenTransfer tokenTransferOptions
                    (fun transaction =>
                       let unsignedTransaction := serialize transaction in
                       match nonce_BN accountInfo with
                       | Thrown => Throw_
                       | Returned nonce'' =>
                       let prehash :=
                         makeSigHashPreSign (sigHash transaction) Standard
                                            (BN fees) nonce'' in
                       Json 200
                            (PayloadResponse
                               ("0x" ++ toString_hex unsignedTransaction)
                               [{| sp_address := senderAddress;
                                   sp_hex_bytes := prehash;
                                   sp_signature_type := "ecdsa_recovery" |}])
                            Return_
                       end)
                  end
            end)
    end end end end end end.

(** *** /combine *)

(** The rotation applied to [signatures[0].hex_bytes] before the message
    signature is created. *)
Definition rotate_recovery_byte (hex_bytes : string) : string :=
  let hash := hex_bytes in
  if negb (startsWith "01" hash) && String.eqb (slice_from 128 hash) "01"
  then slice_from 128 hex_bytes ++ slice_until_last 2 hex_bytes
  else hash.

(** The handler from the verification of [newSignature] to its end.  The
    reply to a failed verification is not followed by a [return]. *)
Definition combine_verify (signature0 : RosettaSignature)
           (transaction : StacksTransaction)
           (newSignature : MessageSignature) : Proc :=
  let signing_payload :=
    if has0xPrefix (pk_hex_bytes (sig_public_key signature0))
    then replace "0x" "" (signing_payload_hex_bytes signature0)
    else signing_payload_hex_bytes signature0 in
  let finish :=
    let transaction :=
      match spendingCondition (auth transaction) with
      | Some c =>
          if isSingleSig c then set_signature newSignature transaction
          else transaction
      | None => transaction
      end in
    let serializedTx := toString_hex (serialize transaction) in
    Json 200 (CombineResponse ("0x" ++ serializedTx)) Return_ in
  if negb (verifySignature signing_payload
                           (pk_hex_bytes (sig_public_key signature0))
                           newSignature)
  then Json 400 (ErrorBody signatureNotVerified) finish
  else finish.

(** The handler from the curve-type test of the first signature on. *)
Definition combine_signature (signature0 : RosettaSignature)
           (transaction : StacksTransaction) : Proc :=
  if negb (String.eqb (pk_curve_type (sig_public_key signature0))
                      "secp256k1")
  then reject invalidCurveType
  else
    match makePresignHash transaction with
    | None | Some EmptyString => reject invalidTransactionString
    | Some _ =>
        match createMessageSignature
                (rotate_recovery_byte (sig_hex_bytes signature0)) with
        | Thrown => reject invalidSignature
        | Returned newSignature =>
            combine_verify signature0 transaction newSignature
        end
    end.

(** The reply to a signature count other than one is not followed by a
    [return]: the handler goes on with [signatures[0]]. *)
Definition combine (v : ValidSchema) (combineRequest : CombineRequest)
  : Proc :=
  if negb (valid v) then reject_schema v
  else
    let signatures := signatures combineRequest in
    let unsigned_transaction' :=
      with0x (unsigned_transaction combineRequest) in
    if Nat.eqb (List.length signatures) 0 then reject noSignatures
    else
      match hexToBuffer unsigned_transaction' with
      | Thrown => reject invalidTransactionString
      | Returned unsigned_transaction_buffer =>
          match deserializeTransaction unsigned_transaction_buffer with
          | Thrown => reject invalidTransactionString
          | Returned transaction =>
              let rest :=
                match signatures with
                | [] => Throw_
                | signature0 :: _ => combine_signature signature0 transaction
                end in
              if negb (Nat.eqb (List.length signatures) 1)
              then Json 400 (ErrorBody needOnlyOneSignature) rest
              else rest
          end
      end.

End Router.

(** ** Token contracts: the SIP-009 / SIP-010 compliance test *)

Module Tokens.

(** A tuple type lists its members as [{name, type}] objects, the shape
    of a function argument. *)
Inductive ClarityAbiType : Type :=
| uint128 | int128 | bool_ | principal | trait_reference | none_
| buffer (length : Z)
| string_ascii (length : Z)
| string_utf8 (length : Z)
| optional (t : ClarityAbiType)
| response (ok error : ClarityAbiType)
| tuple (members : list ClarityAbiArg)
| list_ (t : ClarityAbiType) (length : Z)
with ClarityAbiArg : Type :=
| arg (arg_name : string) (arg_type : ClarityAbiType).

Definition arg_name (a : ClarityAbiArg) : string :=
  match a with arg n _ => n end.

Definition arg_type (a : ClarityAbiArg) : ClarityAbiType :=
  match a with arg _ t => t end.

Inductive Access : Type := public | read_only | private.

Record ClarityAbiFunction : Type := {
  name : string;
  access : Access;
  args : list ClarityAbiArg;
  outputs : ClarityAbiType
}.

Record ClarityAbi : Type := {
  functions : list ClarityAbiFunction;
  fungible_tokens : list string;
  non_fungible_tokens : list string
}.

Definition FT_FUNCTIONS : list ClarityAbiFunction :=
  [ {| access := public;
       args := [ arg "amount" uint128; arg "sender" principal;
                 arg "recipient" principal;
                 arg "memo" (optional (buffer 34)) ];
       name := "transfer";
       outputs := response bool_ uint128 |};
    {| access := read_only; args := []; name := "get-name";
       outputs := response (string_ascii 32) uint128 |};
    {| access := read_only; args := []; name := "get-symbol";
       outputs := response (string_ascii 32) uint128 |};
    {| access := read_only; args := []; name := "get-decimals";
       outputs := response uint128 uint128 |};
    {| access := read_only; args := [ arg "address" principal ];
       name := "get-balance-of";
       outputs := response uint128 uint128 |};
    {| access := read_only; args := []; name := "get-total-supply";
       outputs := response uint128 uint128 |};
    {| access := read_only; args := []; name := "get-token-uri";
       outputs := response (optional (string_ascii 256)) uint128 |} ].

Definition NFT_FUNCTIONS : list ClarityAbiFunction :=
  [ {| access := read_only; args := []; name := "get-last-token-id";
       outputs := response uint128 uint128 |};
    {| access := read_only; args := [ arg "any" uint128 ];
       name := "get-token-uri";
       outputs := response (optional (string_ascii 256)) uint128 |};
    {| access := read_only; args := [ arg "any" uint128 ];
       name := "get-owner";
       outputs := response (optional principal) uint128 |};
    {| access := public;
       args := [ arg "id" uint128; arg "sender" principal;
                 arg "recipient" principal ];
       name := "transfer";
       outputs :=
         response bool_
                  (tuple [ arg "kind" (string_ascii 32); arg "code" uint128 ]) |} ].

Section Handler.

(** [value != fun.args[index]] compares two objects by identity; what it
    yields for a given pair is left open. *)
Variable loose_neq : ClarityAbiArg -> option ClarityAbiArg -> bool.

(** [Array.prototype.forEach]: the callback runs on every element with
    its index, and whatever it returns is dropped. *)
Fixpoint forEach_from {A B : Type} (i : nat) (f : A -> nat -> B)
         (l : list A) : unit :=
  match l with
  | [] => tt
  | x :: l' => let _ := f x i in forEach_from (S i) f l'
  end.

Definition forEach {A B : Type} (l : list A) (f : A -> nat -> B) : unit :=
  forEach_from 0 f l.

(** The callback given to [functionList.find]. *)
Definition matches (fun_ standardFunction : ClarityAbiFunction) : bool :=
  if String.eqb (name standardFunction) (name fun_)
     && Nat.eqb (List.length (args standardFunction))
                (List.length (args fun_))
  then
    let _ :=
      if Nat.ltb 0 (List.length (args standardFunction))
      then forEach (args standardFunction)
                   (fun value index =>
                      if loose_neq value (nth_error (args fun_) index)
                      then Some false
                      else None)
      else tt in
    true
  else false.

Definition findFunction (fun_ : ClarityAbiFunction)
           (functionList : list ClarityAbiFunction) : bool :=
  let found := List.find (matches fun_) functionList in
  match found with
  | Some _ => true
  | None => false
  end.

Definition isCompliant (contractAbi : ClarityAbi)
           (standardFunction : list ClarityAbiFunction) : bool :=
  forallb (fun abiFun => findFunction abiFun (functions contractAbi))
          standardFunction.

End Handler.

(** A fungible-token contract whose [transfer] takes four booleans. *)
Definition odd_transfer : ClarityAbiFunction :=
  {| access := public;
     args := [ arg "a" bool_; arg "b" bool_; arg "c" bool_; arg "d" bool_ ];
     name := "transfer";
     outputs := response bool_ uint128 |}.

Definition odd_contract : ClarityAbi :=
  {| functions := odd_transfer :: List.tl FT_FUNCTIONS;
     fungible_tokens := ["token"];
     non_fungible_tokens := [] |}.

End Tokens.

(** ** A concrete implementation of the helpers

    Small executable stand-ins for the imported helpers, for an account
    service and for a wire format, so that the handlers can be evaluated on
    concrete requests. *)

Module Sample.

Module Impl.

Fixpoint repeat_char (c : ascii) (n : nat) : string :=
match n with
| O => EmptyString
| S n' => String c (repeat_char c n')
end.

Definition hex_digit (c : ascii) : option N :=
let n := N_of_ascii c in
if ((48 <=? n) && (n <=? 57))%N then Some (n - 48)%N
else if ((97 <=? n) && (n <=? 102))%N then Some (n - 87)%N
else if ((65 <=? n) && (n <=? 70))%N then Some (n - 55)%N
else None.

Fixpoint decode_hex (s : string) : Result Buffer :=
match s with
| EmptyString => Returned []
| String a (String b rest) =>
  match hex_digit a, hex_digit b, decode_hex rest with
  | Some h, Some l, Returned bs =>
      match Byte.of_N (16 * h + l) with
      | Some x => Returned (x :: bs)
      | None => Thrown
      end
  | _, _, _ => Thrown
  end
| String _ EmptyString => Thrown
end.

Definition digit_hex (n : N) : ascii :=
if (n <? 10)%N then ascii_of_N (48 + n) else ascii_of_N (87 + n).

Fixpoint encode_hex (b : Buffer) : string :=
match b with
| [] => EmptyString
| x :: b' =>
  let n := Byte.to_N x in
  String (digit_hex (n / 16)) (String (digit_hex (n mod 16))
                                      (encode_hex b'))
end.

Definition has0xPrefix (s : string) : bool := String.prefix "0x" s.

Definition hexToBuffer (s : string) : Result Buffer :=
if String.prefix "0x" s then decode_hex (drop 2 s) else Thrown.

(** Wire format: a version byte, a mode byte ([00] single signature,
[01] multiple signatures), then the signature bytes, or one byte per
authorization field. *)
Definition deserializeTransaction (b : Buffer) : Result StacksTransaction :=
match b with
| ver :: mode :: rest =>
  match Byte.to_N mode with
  | 0%N =>
      Returned
        {| version := Z.of_N (Byte.to_N ver);
           auth := {| authType := 4;
                      spendingCondition :=
                        Some (SingleSig "signer" 0 0
                                {| data := Some (encode_hex rest) |}) |};
           payload := "beef" |}
  | 1%N =>
      Returned
        {| version := Z.of_N (Byte.to_N ver);
           auth := {| authType := 4;
                      spendingCondition :=
                        Some (MultiSig "signer" 0 0
                                (map (fun x =>
                                        {| field_contents :=
                                             encode_hex [x] |}) rest)
                                2) |};
           payload := "beef" |}
  | _ => Thrown
  end
| _ => Thrown
end.

Definition serialize (t : StacksTransaction) : Buffer :=
let ver := match Byte.of_N (Z.to_N (version t)) with
         | Some x => x
         | None => x00
         end in
match spendingCondition (auth t) with
| Some (SingleSig _ _ _ s) =>
  ver :: x00 ::
    match data s with
    | Some h => match decode_hex h with Returned bs => bs | Thrown => [] end
    | None => []
    end
| Some (MultiSig _ _ _ fs _) =>
  ver :: x01 ::
    flat_map (fun f => match decode_hex (field_contents f) with
                       | Returned bs => bs
                       | Thrown => []
                       end) fs
| None => [ver]
end.

Definition emptyMessageSignature : MessageSignature :=
{| data := Some (repeat_char "0" 130) |}.

Definition isSignedTransaction (t : StacksTransaction) : bool :=
match spendingCondition (auth t) with
| Some (SingleSig _ _ _ s) =>
  negb (opt_string_eqb (data s) (data emptyMessageSignature))
| Some (MultiSig _ _ _ fs _) => negb (Nat.eqb (List.length fs) 0)
| None => false
end.

Definition createMessageSignature (s : string) : Result MessageSignature :=
if Nat.leb (String.length s) 130 then Returned {| data := Some s |}
else Thrown.

(** The recoverable signature of [payload] under [key]: a recovery byte
followed by 128 characters. *)
Definition sign (payload key : string) : string :=
"01" ++ take 128 (payload ++ key ++ repeat_char "0" 128).

Definition verifySignature (payload key : string) (s : MessageSignature)
: bool :=
opt_string_eqb (data s) (Some (sign payload key)).

Definition supported (o : RosettaOperation) (test : RosettaCurrency -> bool)
: bool :=
match op_amount o with
| Some a => test (amt_currency a)
| None => true
end.

Definition isSymbolSupported (ops : list RosettaOperation) : bool :=
forallb (fun o => supported o (fun c => String.eqb (cur_symbol c) "STX"))
      ops.

Definition isDecimalsSupported (ops : list RosettaOperation) : bool :=
forallb (fun o => supported o (fun c => cur_decimals c =? 6)) ops.

(** Picks the fee, the debit and the credit out of the operations; an
operation of another type, or a missing one, gives no options. *)
Fixpoint pick (ops : list RosettaOperation)
     (feeOp fromOp toOp : option RosettaOperation)
: option (option RosettaOperation * option RosettaOperation
        * option RosettaOperation) :=
match ops with
| [] => Some (feeOp, fromOp, toOp)
| o :: rest =>
  if String.eqb (op_type o) "fee" then pick rest (Some o) fromOp toOp
  else if String.eqb (op_type o) "token_transfer" then
    match op_amount o with
    | Some a =>
        if String.prefix "-" (amt_value a)
        then pick rest feeOp (Some o) toOp
        else pick rest feeOp fromOp (Some o)
    | None => pick rest feeOp fromOp toOp
    end
  else None
end.

Definition getOptionsFromOperations (ops : list RosettaOperation)
: option RosettaOptions :=
match pick ops None None None with
| Some (Some feeOp, Some fromOp, Some toOp) =>
  match op_amount feeOp, op_amount toOp with
  | Some feeAmount, Some toAmount =>
      Some {| sender_address := op_account fromOp;
              type_ := Some "token_transfer";
              status := Some "success";
              token_transfer_recipient_address := op_account toOp;
              amount := Some (amt_value toAmount);
              symbol := Some (cur_symbol (amt_currency toAmount));
              decimals := Some (cur_decimals (amt_currency toAmount));
              gas_limit := None; gas_price := None;
              suggested_fee_multiplier := None;
              max_fee := None;
              fee := Some (replace "-" "" (amt_value feeAmount)) |}
  | _, _ => None
  end
| _ => None
end.

Definition publicKeyToBitcoinAddress (hex net : string)
: Result (option string) :=
match hex with
| EmptyString => Thrown
| _ => if Nat.eqb (String.length hex) 66
     then Returned (Some ("m" ++ take 8 (drop 2 hex)))
     else Returned None
end.

Definition bitcoinAddressToSTXAddress (btc : string) : Result string :=
Returned ("ST" ++ drop 1 btc).

Definition BN (s : string) : Z :=
fold_left (fun acc c =>
           match hex_digit c with
           | Some d => 10 * acc + Z.of_N d
           | None => acc
           end)
        (list_ascii_of_string s) 0.

End Impl.

#[export] Instance helpers : Helpers := {|
  BaseTx := StacksTransaction;
  has0xPrefix := Impl.has0xPrefix;
  hexToBuffer := Impl.hexToBuffer;
  isValidC32Address := fun a => String.prefix "ST" a || String.prefix "SP" a;
  RosettaConstants_symbol := "STX";
  RosettaConstants_decimals := 6;
  isSymbolSupported := Impl.isSymbolSupported;
  isDecimalsSupported := Impl.isDecimalsSupported;
  getOptionsFromOperations := Impl.getOptionsFromOperations;
  publicKeyToBitcoinAddress := Impl.publicKeyToBitcoinAddress;
  bitcoinAddressToSTXAddress := Impl.bitcoinAddressToSTXAddress;
  rawTxToStacksTransaction := fun s =>
    match Impl.hexToBuffer s with
    | Returned b => Impl.deserializeTransaction b
    | Thrown => Thrown
    end;
  rawTxToBaseTx := fun s =>
    match Impl.hexToBuffer s with
    | Returned b => Impl.deserializeTransaction b
    | Thrown => Thrown
    end;
  getOperations := fun _ => Returned [];
  getSigners := fun _ => Returned ["signer"];
  isSignedTransaction := Impl.isSignedTransaction;
  makePresignHash := fun t => Some ("aa" ++ payload t);
  verifySignature := Impl.verifySignature;
  deserializeTransaction := Impl.deserializeTransaction;
  txid := fun t => Impl.encode_hex (Impl.serialize t);
  serialize := Impl.serialize;
  toString_hex := Impl.encode_hex;
  createMessageSignature := Impl.createMessageSignature;
  emptyMessageSignature := Impl.emptyMessageSignature;
  sigHash := fun t => "bb" ++ payload t;
  makeSigHashPreSign := fun h _ _ _ => "cc" ++ h;
  BN := Impl.BN
|}.

Definition world : World :=
  {| w_getAccount := fun _ => Returned {| nonce := 7 |};
     w_getCurrentBlock := Returned (Found {| block_hash := "0xb10c" |});
     w_sendTransaction := fun b => Returned ("0x" ++ Impl.encode_hex b);
     w_makeUnsignedSTXTokenTransfer := fun _ =>
       Returned {| version := 0;
                   auth := {| authType := 4;
                              spendingCondition :=
                                Some (SingleSig "signer" 7 180
                                                Impl.emptyMessageSignature) |};
                   payload := "beef" |} |}.

Definition ok : ValidSchema := {| valid := true; error := None |}.

(** *** Requests *)

Definition stx : RosettaCurrency := {| cur_symbol := "STX"; cur_decimals := 6 |}.

Definition btc : RosettaCurrency := {| cur_symbol := "BTC"; cur_decimals := 8 |}.

Definition op (i : Z) (ty account value : string) : RosettaOperation :=
  {| op_index := i; op_type := ty; op_status := None;
     op_account := Some account;
     op_amount := Some {| amt_value := value; amt_currency := stx |} |}.

Definition key_hex : string := "025c13b2fc" ++ Impl.repeat_char "0" 56.

Definition sender : string := "ST5c13b2fc".

Definition recipient : string := "ST9recipient".

(** Sender pays 100 to the recipient, with a fee of 180. *)
Definition transfer_operations : list RosettaOperation :=
  [ op 0 "fee" sender "-180";
    op 1 "token_transfer" sender "-100";
    op 2 "token_transfer" recipient "100" ].

(** Three operations in the native currency, the first of a type that is
    neither a fee nor a transfer. *)
Definition stray_operations : list RosettaOperation :=
  [ op 0 "coinbase" sender "-180";
    op 1 "token_transfer" sender "-100";
    op 2 "token_transfer" recipient "100" ].

Definition preprocess_stray_with_foreign_fee : PreprocessRequest :=
  {| pre_operations := stray_operations;
     pre_metadata := None;
     pre_max_fee := Some [ {| amt_value := "1000"; amt_currency := btc |} ];
     pre_suggested_fee_multiplier := None |}.

Definition preprocess_foreign_fee : PreprocessRequest :=
  {| pre_operations := transfer_operations;
     pre_metadata := None;
     pre_max_fee := Some [ {| amt_value := "1000"; amt_currency := btc |} ];
     pre_suggested_fee_multiplier := None |}.

(** The fee multiplier is given inside the metadata object. *)
Definition preprocess_multiplier_in_metadata : PreprocessRequest :=
  {| pre_operations := transfer_operations;
     pre_metadata := Some {| md_gas_limit := Some 5000;
                             md_gas_price := Some 3;
                             md_suggested_fee_multiplier := Some 2 |};
     pre_max_fee := None;
     pre_suggested_fee_multiplier := None |}.

(** The gas limit given in the metadata object is zero. *)
Definition preprocess_zero_gas_limit : PreprocessRequest :=
  {| pre_operations := transfer_operations;
     pre_metadata := Some {| md_gas_limit := Some 0;
                             md_gas_price := Some 3;
                             md_suggested_fee_multiplier := None |};
     pre_max_fee := None;
     pre_suggested_fee_multiplier := None |}.

Definition testnet : NetworkIdentifier :=
  {| blockchain := "stacks"; network := "testnet" |}.

Definition transfer_options : RosettaOptions :=
  {| sender_address := Some sender;
     type_ := Some "token_transfer";
     status := Some "success";
     token_transfer_recipient_address := Some recipient;
     amount := Some "100";
     symbol := Some "STX";
     decimals := Some 6;
     gas_limit := None; gas_price := None;
     suggested_fee_multiplier := None;
     max_fee := None;
     fee := Some "180" |}.

Definition secp (hex : string) : RosettaPublicKey :=
  {| pk_hex_bytes := hex; pk_curve_type := "secp256k1" |}.

(** The key of another account than the declared sender. *)
Definition other_key_hex : string := "03aaaaaaaa" ++ Impl.repeat_char "0" 56.

Definition metadata_own_key : MetadataRequest :=
  {| meta_network_identifier := testnet;
     meta_options := transfer_options;
     meta_public_keys := Some [ secp key_hex ] |}.

Definition metadata_other_key : MetadataRequest :=
  {| meta_network_identifier := testnet;
     meta_options := transfer_options;
     meta_public_keys := Some [ secp other_key_hex ] |}.

Definition payloads_two_keys : PayloadsRequest :=
  {| pay_operations := transfer_operations;
     pay_public_keys := Some [ secp key_hex; secp other_key_hex ] |}.

Definition payloads_other_curve : PayloadsRequest :=
  {| pay_operations := transfer_operations;
     pay_public_keys :=
       Some [ {| pk_hex_bytes := key_hex; pk_curve_type := "edwards25519" |} ] |}.

(** An unsigned single-signature transaction, without the prefix. *)
Definition unsigned_hex : string := "0000" ++ Impl.repeat_char "0" 130.

(** The same transaction carrying a signature. *)
Definition signed_hex : string :=
  "0000" ++ "01" ++ Impl.repeat_char "a" 128.

Definition signing_payload : string := "aabeef".

(** The signature of the payload, recovery byte last. *)
Definition good_signature_hex : string :=
  drop 2 (Impl.sign signing_payload key_hex) ++ "01".

(** A well-formed signature of something else. *)
Definition bad_signature_hex : string := Impl.repeat_char "b" 128 ++ "01".

Definition signature_by (hex : string) : RosettaSignature :=
  {| signing_payload_hex_bytes := signing_payload;
     sig_public_key := secp key_hex;
     sig_hex_bytes := hex |}.

Definition combine_good : CombineRequest :=
  {| unsigned_transaction := unsigned_hex;
     signatures := [ signature_by good_signature_hex ] |}.

Definition combine_bad_signature : CombineRequest :=
  {| unsigned_transaction := "0x" ++ unsigned_hex;
     signatures := [ signature_by bad_signature_hex ] |}.

Definition combine_two_signatures : CombineRequest :=
  {| unsigned_transaction := "0x" ++ unsigned_hex;
     signatures := [ signature_by good_signature_hex;
                     signature_by good_signature_hex ] |}.

End Sample.

(** ** Statements read off the specification *)

Section Claims.

Context {H : Helpers}.

(** A transaction counts as unsigned when its spending condition is
    absent, or single-signature with an absent or empty signature (the
    empty string or the all-zero sentinel), or multi-signature with no
    authorization field. *)
Definition unsigned (t : StacksTransaction) : Prop :=
  match spendingCondition (auth t) with
  | None => True
  | Some (SingleSig _ _ _ s) =>
      data s = None \/ data s = Some "" \/ data s = data emptyMessageSignature
  | Some (MultiSig _ _ _ fs _) => fs = []
  end.

(** *** /preprocess: the order of the checks, as the specification lists
    them *)

Definition wrong_fee_currency (m : RosettaMaxFeeAmount) : Prop :=
  cur_symbol (amt_currency m) <> RosettaConstants_symbol
  \/ cur_decimals (amt_currency m) <> RosettaConstants_decimals.

(** Operation count, then symbol, then decimals, then the currency of
    the supplied maximum fee; the first failing check alone decides the
    answer. *)
Definition preprocess_order_as_listed (v : ValidSchema)
           (req : PreprocessRequest) : Prop :=
  let ops := pre_operations req in
  valid v = true ->
  (List.length ops <> 3%nat -> preprocess v req = reject invalidOperation)
  /\ (List.length ops = 3%nat -> isSymbolSupported ops = false ->
      preprocess v req = reject invalidCurrencySymbol)
  /\ (List.length ops = 3%nat -> isSymbolSupported ops = true ->
      isDecimalsSupported ops = false ->
      preprocess v req = reject invalidCurrencyDecimals)
  /\ (List.length ops = 3%nat -> isSymbolSupported ops = true ->
      isDecimalsSupported ops = true ->
      forall m rest, pre_max_fee req = Some (m :: rest) ->
                     wrong_fee_currency m ->
                     preprocess v req = reject invalidFee).

(** *** /preprocess: every override of the metadata object shows in the
    options of an accepted request *)
Definition overrides_carried_as_listed (v : ValidSchema)
           (req : PreprocessRequest) : Prop :=
  forall md options,
    pre_metadata req = Some md ->
    preprocess v req = preprocess_response options ->
    (forall x, md_gas_limit md = Some x -> gas_limit options = Some x)
    /\ (forall x, md_gas_price md = Some x -> gas_price options = Some x)
    /\ (forall x, md_suggested_fee_multiplier md = Some x ->
                  suggested_fee_multiplier options = Some x).

(** *** /payloads: the key list, as the specification lists it *)

(** A request that has passed the amount, fee, recipient and sender
    tests is answered [needOnePublicKey] when its key list does not hold
    exactly one key, and [invalidCurveType], with no transaction built,
    when its one key is not on secp256k1. *)
Definition payloads_key_count_as_listed (v : ValidSchema)
           (req : PayloadsRequest) (w : World) : Prop :=
  forall options pks amount' fees recipientAddress senderAddress,
    valid v = true ->
    getOptionsFromOperations (pay_operations req) = Some options ->
    amount options = Some amount' -> amount' <> "" ->
    fee options = Some fees -> fees <> "" ->
    pay_public_keys req = Some pks ->
    token_transfer_recipient_address options = Some recipientAddress ->
    recipientAddress <> "" ->
    sender_address options = Some senderAddress -> senderAddress <> "" ->
    let t := fst (run w (payloads v req)) in
    (List.length pks <> 1%nat ->
     In (Replied 400 (ErrorBody needOnePublicKey)) t)
    /\ (forall pk, pks = [pk] -> pk_curve_type pk <> "secp256k1" ->
        In (Replied 400 (ErrorBody invalidCurveType)) t
        /\ forall opts, ~ In (BuiltTransfer opts) t).

(** *** /metadata: the checks, one by one *)

Definition type_ok (o : RosettaOptions) : Prop :=
  type_ o = Some "token_transfer".

Definition sender_ok (o : RosettaOptions) : Prop :=
  forall a, sender_address o = Some a -> a <> "" ->
            isValidC32Address a = true.

Definition symbol_ok (o : RosettaOptions) : Prop :=
  symbol o = Some RosettaConstants_symbol.

Definition decimals_ok (o : RosettaOptions) : Prop :=
  decimals o = Some RosettaConstants_decimals.

Definition recipient_ok (o : RosettaOptions) : Prop :=
  exists r, token_transfer_recipient_address o = Some r
            /\ isValidC32Address r = true.

(** The address derived from the first supplied key is the declared
    sender. *)
Definition key_matches (request : MetadataRequest) (pk : RosettaPublicKey)
  : Prop :=
  exists a,
    derived_address pk (network (meta_network_identifier request))
    = Returned (Some a)
    /\ sender_address (meta_options request) = Some a.

Definition key_ok (request : MetadataRequest) : Prop :=
  forall pk rest, meta_public_keys request = Some (pk :: rest) ->
                  key_matches request pk.

(** The errors a metadata call answers with after the schema gate. *)
Definition metadata_errors : list RosettaError :=
  [ invalidTransactionType; invalidSender; invalidCurrencySymbol;
    invalidCurrencyDecimals; invalidRecipient; invalidPublicKey ].

End Claims.

(** ** The rest of the construction router: /derive *)

Module JsMore.

(** [s.includes(pat)] *)
Fixpoint includes (pat s : string) : bool :=
  if String.prefix pat s then true
  else match s with
       | EmptyString => false
       | String _ s' => includes pat s'
       end.

(** A [string | undefined] inside a template literal. *)
Definition interpolate (s : option string) : string :=
  match s with
  | Some x => x
  | None => "undefined"
  end.

End JsMore.

Record DeriveRequest : Type := {
  derive_public_key : RosettaPublicKey;
  derive_network_identifier : NetworkIdentifier
}.

Inductive DeriveBody : Type :=
| DeriveError (e : RosettaError)
| DeriveSchemaError (v : ValidSchema)
| DeriveResponse (address : string).

Section Derive.

Context {H : Helpers}.

(** The handler awaits nothing but the schema verdict; it is embedded as
    the list of the [res.status(st).json(b)] calls it makes, in order;
    what becomes of them is told by [deliver] below.  On a schema error
    about the allowed values the [invalidCurveType] reply is not followed
    by a [return], and the handler goes on to a second call. *)
Definition derive (v : ValidSchema) (req : DeriveRequest)
  : list (Z * DeriveBody) :=
  if negb (valid v) then
    let curve :=
      match error v with
      | Some e =>
          if JsMore.includes "should be equal to one of the allowed values" e
          then [(400, DeriveError invalidCurveType)]
          else []
      | None => []
      end in
    curve ++ [(400, DeriveSchemaError v)]
  else
    let publicKey := derive_public_key req in
    let network_identifier := derive_network_identifier req in
    match publicKeyToBitcoinAddress
            (strip_key_prefix (pk_hex_bytes publicKey))
            (network network_identifier) with
    | Thrown => [(400, DeriveError invalidPublicKey)]
    | Returned None => [(400, DeriveError invalidPublicKey)]
    | Returned (Some btcAddress) =>
        match bitcoinAddressToSTXAddress btcAddress with
        | Thrown => [(400, DeriveError invalidPublicKey)]
        | Returned stxAddress => [(200, DeriveResponse stxAddress)]
        end
    end.

(** What becomes of the calls of one invocation: the first is sent as the
    reply; a second one throws, the headers being sent already, which
    ends the invocation by an exception that the handler does not
    catch. *)
Definition deliver {B : Type} (calls : list (Z * B))
  : list (Z * B) * Outcome :=
  match calls with
  | [] => ([], Finished)
  | [c] => ([c], Finished)
  | c :: _ :: _ => ([c], Crashed)
  end.

End Derive.

(** ** The microblock router *)

Module Microblocks.

Definition MAX_MICROBLOCKS_PER_REQUEST : Z := 200.

(** [req.query.x ?? n]: the query value when there is one, else the
    number [n]. *)
Inductive Input (Q : Type) : Type :=
| Given (q : Q)
| Number (n : Z).
Arguments Given {Q} q.
Arguments Number {Q} n.

Definition or_default {Q : Type} (q : option Q) (n : Z) : Input Q :=
  match q with
  | Some x => Given x
  | None => Number n
  end.

Record Query (R : Type) : Type := {
  total : Z;
  result : list R
}.
Arguments total {R} _.
Arguments result {R} _.

Inductive Body (M T : Type) : Type :=
| MicroblockListResponse (limit offset total : Z) (results : list M)
| MicroblockBody (block : M)
| NotFoundBody (error : string)
| UnanchoredTransactionListResponse (total : Z) (results : list T).
Arguments MicroblockListResponse {M T} limit offset total results.
Arguments MicroblockBody {M T} block.
Arguments NotFoundBody {M T} error.
Arguments UnanchoredTransactionListResponse {M T} total results.

(** The calls of a handler of this router: replies, a redirect, and the
    three datastore queries. *)
Inductive Proc (M T : Type) : Type :=
| Return_
| Throw_
| Redirect (url : string) (k : Proc M T)
| Json (st : Z) (body : Body M T) (k : Proc M T)
| GetMicroblocks (offset limit : Z) (k : Query M -> Proc M T)
| GetMicroblock (microblockHash : string) (k : FoundOrNot M -> Proc M T)
| GetUnanchoredTxs (k : list T -> Proc M T).
Arguments Return_ {M T}.
Arguments Throw_ {M T}.
Arguments Redirect {M T} url k.
Arguments Json {M T} st body k.
Arguments GetMicroblocks {M T} offset limit k.
Arguments GetMicroblock {M T} microblockHash k.
Arguments GetUnanchoredTxs {M T} k.

Section Router.

Context {H : Helpers}.

(** Microblocks, transactions and raw query values are passed through;
    the two parsers of [pagination] are not part of the router. *)
Variables M T Q : Type.
Variable parseMicroblockQueryLimit : Input Q -> Result Z.
Variable parsePagingQueryInput : Input Q -> Result Z.

(** GET / *)
Definition list_microblocks (query_limit query_offset : option Q)
  : Proc M T :=
  match parseMicroblockQueryLimit (or_default query_limit 20) with
  | Thrown => Throw_
  | Returned limit =>
      match parsePagingQueryInput (or_default query_offset 0) with
      | Thrown => Throw_
      | Returned offset =>
          GetMicroblocks offset limit (fun query =>
            Json 200
                 (MicroblockListResponse limit offset (total query)
                                         (result query))
                 Return_)
      end
  end.

(** GET /:hash *)
Definition get_microblock (hash : string) : Proc M T :=
  if negb (has0xPrefix hash)
  then Redirect ("/extended/v1/microblock/0x" ++ hash) Return_
  else
    GetMicroblock hash (fun block =>
      match block with
      | NotFound =>
          Json 404
               (NotFoundBody ("cannot find microblock by hash " ++ hash))
               Return_
      | Found result => Json 200 (MicroblockBody result) Return_
      end).

(** GET /unanchored/txs *)
Definition unanchored_txs : Proc M T :=
  GetUnanchoredTxs (fun txs =>
    Json 200
         (UnanchoredTransactionListResponse (Z.of_nat (List.length txs)) txs)
         Return_).

End Router.

End Microblocks.

(** ** The token-contract handler *)

Module TokenHandler.

Import Tokens.

(** Clarity values as the transaction library represents them; a tuple
    holds its members by name. *)
#[warnings="-register-all"]
Inductive ClarityValue : Type :=
| IntCV (value : Z)
| UIntCV (value : Z)
| BufferCV (buffer : Buffer)
| TrueCV
| FalseCV
| StandardPrincipalCV (address : string)
| ContractPrincipalCV (address contractName : string)
| ResponseOkCV (value : ClarityValue)
| ResponseErrorCV (value : ClarityValue)
| NoneCV
| SomeCV (value : ClarityValue)
| ListCV (items : list ClarityValue)
| TupleCV (data : list TupleMember)
| StringAsciiCV (data : string)
| StringUtf8CV (data : string)
with TupleMember : Type :=
| member (key : string) (value : ClarityValue).

Record ReadOnlyFunctionOptions : Type := {
  senderAddress : string;
  ro_contractAddress : string;
  ro_contractName : string;
  functionName : string;
  functionArgs : list ClarityValue;
  ro_network : string
}.

(** What [JSON.parse] of the fetched text yields, read as a
    [TokenMetadata]; the cast checks nothing, so a member may be missing. *)
Record TokenMetadata : Type := {
  tm_name : option string;
  tm_imageUrl : option string;
  tm_description : option string
}.

Record DbFungibleTokenMetadata : Type := {
  ft_name : option string;
  ft_description : option string;
  ft_image_uri : option string;
  ft_image_canonical_uri : string;
  ft_symbol : string;
  ft_decimals : Z;
  ft_contract_id : string
}.

Record DbNonFungibleTokenMetadata : Type := {
  nft_name : option string;
  nft_description : option string;
  nft_image_uri : option string;
  nft_image_canonical_uri : string;
  nft_contract_id : string
}.

(** The answer of [fetch], with its body text already read. *)
Record Response : Type := {
  ok : bool;
  resp_status : Z;
  statusText : string;
  text : Result string
}.

(** What the handler throws: the error it builds for a response that is
    not ok, or an error of a callee that it throws again. *)
Inductive Error : Type :=
| ResponseError (st : Z) (statusText url msg : string)
| Rethrown.

(** The calls of the handler: read-only contract calls, the fetch of the
    metadata document and the two datastore updates, whose failure the
    handler catches. *)
Inductive Proc : Type :=
| Return_
| Throw_ (e : Error)
| CallReadOnlyFunction (txOptions : ReadOnlyFunctionOptions)
                       (k : ClarityValue -> Proc)
| Fetch (url : string) (k : Response -> Proc)
| UpdateFtMetadata (m : DbFungibleTokenMetadata) (k : Result unit -> Proc)
| UpdateNFtMetadata (m : DbNonFungibleTokenMetadata)
                    (k : Result unit -> Proc).

(** The fields of a [TokensContractHandler]; [address] is the address of
    the random key made when the handler is constructed. *)
Record TokensContractHandler : Type := {
  contractAddress : string;
  contractName : string;
  contractAbi : ClarityAbi;
  stacksNetwork : string;
  address : string
}.

Definition PUBLIC_IPFS : string := "https://ipfs.io".

Definition checkAndParseUintCV (responseCV : ClarityValue) : option Z :=
  match responseCV with
  | ResponseOkCV (UIntCV value) => Some value
  | _ => None
  end.

Definition checkAndParseOptionalString (responseCV : ClarityValue)
  : option string :=
  match responseCV with
  | ResponseOkCV (SomeCV (StringAsciiCV data)) => Some data
  | _ => None
  end.

Definition checkAndParseString (responseCV : ClarityValue) : option string :=
  match responseCV with
  | ResponseOkCV (StringAsciiCV data) => Some data
  | _ => None
  end.

Definition hasTokens (contract_abi : ClarityAbi) : bool :=
  Nat.ltb 0 (List.length (fungible_tokens contract_abi))
  || Nat.ltb 0 (List.length (non_fungible_tokens contract_abi)).

Section Handler.

Variable loose_neq : ClarityAbiArg -> option ClarityAbiArg -> bool.

(** [URI.parse(uri).host] and [.path], and [JSON.parse]. *)
Variable URI_host : string -> option string.
Variable URI_path : string -> option string.
Variable JSON_parse : string -> Result TokenMetadata.

Variable this : TokensContractHandler.

Definition makeHostedUrl (uri : string) : string :=
  PUBLIC_IPFS ++ "/" ++ JsMore.interpolate (URI_host uri)
              ++ JsMore.interpolate (URI_path uri).

(** [makeApiCall(url)], followed by [k] on what it returns. *)
Definition makeApiCall (url : string) (k : TokenMetadata -> Proc) : Proc :=
  Fetch url (fun result =>
    if negb (ok result) then
      let msg := match text result with
                 | Returned t => t
                 | Thrown => ""
                 end in
      Throw_ (ResponseError (resp_status result) (statusText result) url msg)
    else
      match text result with
      | Thrown => Throw_ Rethrown
      | Returned resultString =>
          match JSON_parse resultString with
          | Thrown => Throw_ Rethrown
          | Returned metadata => k metadata
          end
      end).

Definition getMetadataFromUri (token_uri : string)
           (k : TokenMetadata -> Proc) : Proc :=
  makeApiCall (makeHostedUrl token_uri) k.

(** The [txOptions] of a read-only call. *)
Definition txOptions (functionName : string)
           (functionArgs : list ClarityValue) : ReadOnlyFunctionOptions :=
  {| senderAddress := address this;
     ro_contractAddress := contractAddress this;
     ro_contractName := contractName this;
     functionName := functionName;
     functionArgs := functionArgs;
     ro_network := stacksNetwork this |}.

Definition makeReadOnlyContractCall (functionName : string)
           (functionArgs : list ClarityValue) (k : ClarityValue -> Proc)
  : Proc :=
  CallReadOnlyFunction (txOptions functionName functionArgs) k.

(** The failure of the update is caught (and logged). *)
Definition storeFTMetadata (ft_metadata : DbFungibleTokenMetadata)
           (k : Proc) : Proc :=
  UpdateFtMetadata ft_metadata (fun _ => k).

Definition storeNFTMetadata (nft_metadata : DbNonFungibleTokenMetadata)
           (k : Proc) : Proc :=
  UpdateNFtMetadata nft_metadata (fun _ => k).

Definition contract_id : string :=
  contractAddress this ++ "." ++ contractName this.

Definition handleFTContract (k : Proc) : Proc :=
  makeReadOnlyContractCall "get-name" [] (fun contractCallName =>
  makeReadOnlyContractCall "get-token-uri" [] (fun contractCallUri =>
  makeReadOnlyContractCall "get-symbol" [] (fun contractCallSymbol =>
  makeReadOnlyContractCall "get-decimals" [] (fun contractCallDecimals =>
    let nameCV := checkAndParseString contractCallName in
    let uriCV := checkAndParseOptionalString contractCallUri in
    let symbolCV := checkAndParseString contractCallSymbol in
    let decimalsCV := checkAndParseUintCV contractCallDecimals in
    match uriCV with
    | Some uri =>
        getMetadataFromUri uri (fun metadata =>
          let fungibleTokenMetadata :=
            {| ft_name := match nameCV with
                          | Some n => Some n
                          | None => tm_name metadata
                          end;
               ft_description := tm_description metadata;
               ft_image_uri := tm_imageUrl metadata;
               ft_image_canonical_uri := uri;
               ft_symbol := match symbolCV with
                            | Some s => s
                            | None => ""
                            end;
               ft_decimals := match decimalsCV with
                              | Some d => d
                              | None => 0
                              end;
               ft_contract_id := contract_id |} in
          storeFTMetadata fungibleTokenMetadata k)
    | None => k
    end)))).

Definition handleNFTContract (k : Proc) : Proc :=
  makeReadOnlyContractCall "get-last-token-id" [] (fun contractCallTokenId =>
    let tokenId := checkAndParseUintCV contractCallTokenId in
    match tokenId with
    | Some id =>
        makeReadOnlyContractCall "get-token-uri" [UIntCV id]
          (fun contractCallUri =>
             let uriCV := checkAndParseOptionalString contractCallUri in
             match uriCV with
             | Some uri =>
                 getMetadataFromUri uri (fun metadata =>
                   let nonFungibleTokenMetadata :=
                     {| nft_name := tm_name metadata;
                        nft_description := tm_description metadata;
                        nft_image_uri := tm_imageUrl metadata;
                        nft_image_canonical_uri := uri;
                        nft_contract_id := contract_id |} in
                   storeNFTMetadata nonFungibleTokenMetadata k)
             | None => k
             end)
    | None => k
    end).

Definition start : Proc :=
  let non_fungible :=
    if Nat.ltb 0 (List.length (non_fungible_tokens (contractAbi this)))
    then if isCompliant loose_neq (contractAbi this) NFT_FUNCTIONS
         then handleNFTContract Return_
         else Return_
    else Return_ in
  if Nat.ltb 0 (List.length (fungible_tokens (contractAbi this)))
  then if isCompliant loose_neq (contractAbi this) FT_FUNCTIONS
       then handleFTContract non_fungible
       else non_fungible
  else non_fungible.

End Handler.

(** *** Running the handler *)

Record World : Type := {
  w_callReadOnlyFunction : ReadOnlyFunctionOptions -> Result ClarityValue;
  w_fetch : string -> Result Response;
  w_updateFtMetadata : DbFungibleTokenMetadata -> Result unit;
  w_updateNFtMetadata : DbNonFungibleTokenMetadata -> Result unit
}.

Inductive Event : Type :=
| Called (txOptions : ReadOnlyFunctionOptions)
| Fetched (url : string)
| StoredFt (m : DbFungibleTokenMetadata)
| StoredNft (m : DbNonFungibleTokenMetadata).

(** The calls of one run, in order, and how it ended; [StoredFt] and
    [StoredNft] record the update being asked for. *)
Fixpoint run (w : World) (p : Proc) : list Event * Outcome :=
  match p with
  | Return_ => ([], Finished)
  | Throw_ _ => ([], Crashed)
  | CallReadOnlyFunction o k =>
      match w_callReadOnlyFunction w o with
      | Returned v => let (t, r) := run w (k v) in (Called o :: t, r)
      | Thrown => ([Called o], Crashed)
      end
  | Fetch url k =>
      match w_fetch w url with
      | Returned v => let (t, r) := run w (k v) in (Fetched url :: t, r)
      | Thrown => ([Fetched url], Crashed)
      end
  | UpdateFtMetadata m k =>
      let (t, r) := run w (k (w_updateFtMetadata w m)) in (StoredFt m :: t, r)
  | UpdateNFtMetadata m k =>
      let (t, r) := run w (k (w_updateNFtMetadata w m)) in
      (StoredNft m :: t, r)
  end.

Section Fetching.

Variable URI_host : string -> option string.
Variable URI_path : string -> option string.
Variable JSON_parse : string -> Result TokenMetadata.
Variable w : World.

(** The document [getMetadataFromUri] returns for a URI in this world:
    there is one when the fetch answers ok with a text that parses. *)
Definition fetched (uri : string) : option TokenMetadata :=
  match w_fetch w (makeHostedUrl URI_host URI_path uri) with
  | Returned resp =>
      if ok resp then
        match text resp with
        | Returned s =>
            match JSON_parse s with
            | Returned md => Some md
            | Thrown => None
            end
        | Thrown => None
        end
      else None
  | Thrown => None
  end.

End Fetching.

Definition called_functions (t : list Event) : list string :=
  flat_map (fun e => match e with
                     | Called o => [functionName o]
                     | _ => []
                     end) t.

Definition is_store (e : Event) : bool :=
  match e with
  | StoredFt _ | StoredNft _ => true
  | _ => false
  end.

End TokenHandler.

(** ** More requests, and a world for the token-contract handler *)

Module MoreSamples.

Import Sample.

Definition schema_error (msg : string) : ValidSchema :=
  {| valid := false; error := Some msg |}.

Definition derive_own_key : DeriveRequest :=
  {| derive_public_key := secp key_hex;
     derive_network_identifier := testnet |}.

Definition payloads_one_key : PayloadsRequest :=
  {| pay_operations := transfer_operations;
     pay_public_keys := Some [ secp key_hex ] |}.

Definition preprocess_native_fee : PreprocessRequest :=
  {| pre_operations := transfer_operations;
     pre_metadata := Some {| md_gas_limit := Some 5000;
                             md_gas_price := None;
                             md_suggested_fee_multiplier := None |};
     pre_max_fee := Some [ {| amt_value := "1000"; amt_currency := stx |};
                           {| amt_value := "7"; amt_currency := btc |} ];
     pre_suggested_fee_multiplier := Some 2 |}.

Definition preprocess_empty_fee : PreprocessRequest :=
  {| pre_operations := transfer_operations;
     pre_metadata := None;
     pre_max_fee := Some [];
     pre_suggested_fee_multiplier := None |}.

(** Bytes that decode but are no transaction: the mode byte is unknown. *)
Definition unknown_mode_hex : string := "0x0005".

(** A multi-signature transaction with two authorization fields. *)
Definition multisig_hex : string := "0x0001aabb".

Definition combine_multisig : CombineRequest :=
  {| unsigned_transaction := multisig_hex;
     signatures := [ signature_by good_signature_hex ] |}.

Definition combine_none : CombineRequest :=
  {| unsigned_transaction := "not hex"; signatures := [] |}.

(** A world whose broadcast service is down. *)
Definition offline : World :=
  {| w_getAccount := fun _ => Thrown;
     w_getCurrentBlock := Thrown;
     w_sendTransaction := fun _ => Thrown;
     w_makeUnsignedSTXTokenTransfer := fun _ => Thrown |}.

Import Tokens TokenHandler.

(** A contract with both kinds of token and the functions of both
    standards. *)
Definition both_abi : ClarityAbi :=
  {| functions := FT_FUNCTIONS ++ NFT_FUNCTIONS;
     fungible_tokens := ["coin"];
     non_fungible_tokens := ["card"] |}.

Definition plain_abi : ClarityAbi :=
  {| functions := []; fungible_tokens := []; non_fungible_tokens := [] |}.

Definition handler_of (abi : ClarityAbi) : TokensContractHandler :=
  {| contractAddress := "SP2J6ZY48GV1EZ5V2V5RB9MP66SW86PYKKNRV9EJ7";
     contractName := "tokens";
     contractAbi := abi;
     stacksNetwork := "mainnet";
     address := "SP3FBR2AGK5H9QBDH3EEN6DF8EK8JY7RX8QJ5SVTE" |}.

Definition never_differ (a : ClarityAbiArg) (b : option ClarityAbiArg)
  : bool := false.

Definition URI_host (uri : string) : option string :=
  if String.prefix "ipfs://" uri then Some (take 2 (drop 7 uri)) else None.

Definition URI_path (uri : string) : option string :=
  if String.prefix "ipfs://" uri then Some (drop 9 uri) else None.

Definition document : TokenMetadata :=
  {| tm_name := Some "A coin";
     tm_imageUrl := Some "https://example.com/coin.png";
     tm_description := None |}.

Definition JSON_parse (s : string) : Result TokenMetadata :=
  if String.eqb s "document" then Returned document else Thrown.

(** The contract answers every metadata call; the document is served; the
    datastore refuses updates. *)
Definition answering : TokenHandler.World :=
  {| w_callReadOnlyFunction := fun o =>
       if String.eqb (functionName o) "get-name"
       then Returned (ResponseOkCV (StringAsciiCV "Coin"))
       else if String.eqb (functionName o) "get-token-uri"
       then Returned (ResponseOkCV (SomeCV (StringAsciiCV "ipfs://Qm/coin.json")))
       else if String.eqb (functionName o) "get-symbol"
       then Returned (ResponseErrorCV (UIntCV 1))
       else if String.eqb (functionName o) "get-decimals"
       then Returned (ResponseOkCV (UIntCV 6))
       else if String.eqb (functionName o) "get-last-token-id"
       then Returned (ResponseOkCV (UIntCV 7))
       else Thrown;
     w_fetch := fun _ =>
       Returned {| ok := true; resp_status := 200; statusText := "OK";
                   text := Returned "document" |};
     w_updateFtMetadata := fun _ => Thrown;
     w_updateNFtMetadata := fun _ => Returned tt |}.

(** The contract answers [(ok none)] to every call. *)
Definition silent : TokenHandler.World :=
  {| w_callReadOnlyFunction := fun _ => Returned (ResponseOkCV NoneCV);
     w_fetch := fun _ => Thrown;
     w_updateFtMetadata := fun _ => Returned tt;
     w_updateNFtMetadata := fun _ => Returned tt |}.

End MoreSamples.

(** ** Properties *)

Section JsFacts.

Lemma opt_string_eqb_eq (a b : option string) :
  opt_string_eqb a b = true <-> a = b.
Proof.
  destruct a as [x|], b as [y|]; simpl; split; intro E;
    try discriminate; try reflexivity.
  - apply String.eqb_eq in E. now subst.
  - injection E as ->. apply String.eqb_refl.
Qed.

Lemma opt_string_eqb_neq (a b : option string) :
  opt_string_eqb a b = false <-> a <> b.
Proof.
  rewrite <- opt_string_eqb_eq. destruct (opt_string_eqb a b); split;
    congruence.
Qed.

Lemma truthy_string_false (s : option string) :
  truthy_string s = false <-> s = None \/ s = Some "".
Proof.
  destruct s as [[|c s]|]; simpl; split; intro E; auto; try discriminate.
  destruct E as [E|E]; discriminate.
Qed.

End JsFacts.

Section HashProperties.

Context {H : Helpers}.

(** C3.  A hash request whose transaction decodes and deserializes is
    answered with [transactionNotSigned] when the transaction is unsigned
    (no spending condition; single-signature with an absent, empty or
    all-zero signature; multi-signature without authorization fields),
    and otherwise with the transaction id behind a ["0x"] prefix. *)
Theorem hash_signed_state (v : ValidSchema) (request : HashRequest)
        (buffer : Buffer) (transaction : StacksTransaction) :
  valid v = true ->
  hexToBuffer (with0x (signed_transaction request)) = Returned buffer ->
  deserializeTransaction buffer = Returned transaction ->
  (unsigned transaction ->
   hash v request = reject transactionNotSigned)
  /\ (~ unsigned transaction ->
      hash v request
      = Json 200 (HashResponse ("0x" ++ txid transaction)) Return_).
Proof.
  intros Hv Hbuf Htx. unfold hash, unsigned.
  rewrite Hv, Hbuf, Htx. cbn [negb].
  destruct (spendingCondition (auth transaction)) as [[who n f s|who n f fs r]|].
  - destruct (truthy_string (data s)) eqn:Et; cbn [negb orb].
    + destruct (opt_string_eqb (data emptyMessageSignature) (data s)) eqn:Ee.
      * split; [reflexivity|]. intros N. exfalso. apply N. right. right.
        symmetry. now apply opt_string_eqb_eq.
      * split; [|reflexivity]. intros [E|[E|E]].
        -- rewrite E in Et. discriminate.
        -- rewrite E in Et. discriminate.
        -- apply opt_string_eqb_neq in Ee. congruence.
    + split; [reflexivity|]. intros N. exfalso. apply N.
      apply truthy_string_false in Et. tauto.
  - destruct fs as [|x fs]; cbn [List.length Nat.eqb].
    + split; [reflexivity|]. intros N. now elim N.
    + split; [discriminate|reflexivity].
  - split; [reflexivity|]. intros N. now elim N.
Qed.

End HashProperties.

Section HashOnSamples.

Import Sample.

Lemma hash_signed_state_witness :
  hash ok {| signed_transaction := unsigned_hex |}
  = reject transactionNotSigned
  /\ hash ok {| signed_transaction := signed_hex |}
     = Json 200 (HashResponse ("0x" ++ signed_hex)) Return_.
Proof.
  split.
  - refine (proj1 (hash_signed_state ok {| signed_transaction := unsigned_hex |}
                                     _ _ eq_refl eq_refl eq_refl) _).
    right. right. reflexivity.
  - refine (proj2 (hash_signed_state ok {| signed_transaction := signed_hex |}
                                     _ _ eq_refl eq_refl eq_refl) _).
    intros [E|[E|E]]; discriminate E.
Defined.

End HashOnSamples.

Section StringFacts.

Lemma drop_length (n : nat) (s : string) :
  String.length (drop n s) = (String.length s - n)%nat.
Proof.
  revert s. induction n as [|n IH]; intros s; simpl.
  - lia.
  - destruct s as [|c s]; simpl; [reflexivity|apply IH].
Qed.

Lemma take_drop (n : nat) (s : string) : take n s ++ drop n s = s.
Proof.
  revert s. induction n as [|n IH]; intros s; simpl.
  - reflexivity.
  - destruct s as [|c s]; simpl; [reflexivity|now rewrite IH].
Qed.

(** A string whose tail from index 128 is ["01"] is its first 128
    characters followed by ["01"]. *)
Lemma trailing_byte_split (s : string) :
  slice_from 128 s = "01" ->
  slice_until_last 2 s = take 128 s /\ s = take 128 s ++ "01".
Proof.
  unfold slice_from, slice_until_last. intros E.
  assert (L : String.length s = 130%nat).
  { pose proof (drop_length 128 s) as D. rewrite E in D. simpl in D. lia. }
  rewrite L. split; [reflexivity|].
  rewrite <- E. symmetry. apply take_drop.
Qed.

End StringFacts.

Section CombineProperties.

Context {H : Helpers}.

(** The handler up to the construction of the message signature, for a
    request with exactly one signature. *)
Lemma combine_single (v : ValidSchema) (request : CombineRequest)
      (signature0 : RosettaSignature) (buffer : Buffer)
      (transaction : StacksTransaction) :
  valid v = true ->
  signatures request = [signature0] ->
  hexToBuffer (with0x (unsigned_transaction request)) = Returned buffer ->
  deserializeTransaction buffer = Returned transaction ->
  combine v request = combine_signature signature0 transaction.
Proof.
  intros Hv Hs Hb Ht. unfold combine. rewrite Hv, Hs, Hb, Ht. reflexivity.
Qed.

Lemma combine_signature_presigned (signature0 : RosettaSignature)
      (transaction : StacksTransaction) (presign : string) :
  pk_curve_type (sig_public_key signature0) = "secp256k1" ->
  makePresignHash transaction = Some presign -> presign <> "" ->
  combine_signature signature0 transaction
  = match createMessageSignature
            (rotate_recovery_byte (sig_hex_bytes signature0)) with
    | Thrown => reject invalidSignature
    | Returned newSignature =>
        combine_verify signature0 transaction newSignature
    end.
Proof.
  intros Hc Hp Hne. unfold combine_signature.
  rewrite Hc, String.eqb_refl, Hp. cbn [negb].
  destruct presign; [congruence|reflexivity].
Qed.

(** C5.  The signature string handed to [createMessageSignature]: when it
    does not start with ["01"] and its characters from index 128 on are
    ["01"], it is that ["01"] followed by the string without its last two
    characters; every other string is handed over as it is. *)
Theorem rotate_recovery_byte_spec (hex : string) :
  (startsWith "01" hex = false -> slice_from 128 hex = "01" ->
   rotate_recovery_byte hex = "01" ++ slice_until_last 2 hex
   /\ hex = slice_until_last 2 hex ++ "01")
  /\ (startsWith "01" hex = true \/ slice_from 128 hex <> "01" ->
      rotate_recovery_byte hex = hex)
  /\ (forall v request signature0 buffer transaction presign,
        valid v = true ->
        signatures request = [signature0] ->
        sig_hex_bytes signature0 = hex ->
        hexToBuffer (with0x (unsigned_transaction request))
        = Returned buffer ->
        deserializeTransaction buffer = Returned transaction ->
        pk_curve_type (sig_public_key signature0) = "secp256k1" ->
        makePresignHash transaction = Some presign -> presign <> "" ->
        combine v request
        = match createMessageSignature (rotate_recovery_byte hex) with
          | Thrown => reject invalidSignature
          | Returned newSignature =>
              combine_verify signature0 transaction newSignature
          end).
Proof.
  split; [|split].
  - intros Hs Ht. unfold rotate_recovery_byte. rewrite Hs, Ht.
    cbn [negb andb String.eqb Ascii.eqb Bool.eqb].
    destruct (trailing_byte_split hex Ht) as [E1 E2].
    split; [reflexivity|]. now rewrite E1.
  - intros [Hs|Ht]; unfold rotate_recovery_byte.
    + now rewrite Hs.
    + apply String.eqb_neq in Ht. rewrite Ht.
      now rewrite andb_false_r.
  - intros v request signature0 buffer transaction presign
           Hv Hs Hh Hb Hd Hc Hp Hne.
    rewrite (combine_single v request signature0 buffer transaction)
      by assumption.
    rewrite (combine_signature_presigned signature0 transaction presign)
      by assumption.
    now rewrite Hh.
Qed.

(** C1.  What the handler does when a check made after deserialization
    fails without a [return]: a signature that does not verify is
    answered with [signatureNotVerified], after which the signature is
    still written into the single-signature spending condition and the
    transaction serialized for a second [res.json]; a request with more than
    one signature is answered with [needOnlyOneSignature] and then
    handled on with its first signature. *)
Theorem combine_goes_on_after_error (v : ValidSchema)
        (request : CombineRequest) (buffer : Buffer)
        (transaction : StacksTransaction) :
  valid v = true ->
  hexToBuffer (with0x (unsigned_transaction request)) = Returned buffer ->
  deserializeTransaction buffer = Returned transaction ->
  (forall signature0 presign newSignature who n f old,
      signatures request = [signature0] ->
      pk_curve_type (sig_public_key signature0) = "secp256k1" ->
      makePresignHash transaction = Some presign -> presign <> "" ->
      createMessageSignature (rotate_recovery_byte (sig_hex_bytes signature0))
      = Returned newSignature ->
      verifySignature
        (if has0xPrefix (pk_hex_bytes (sig_public_key signature0))
         then replace "0x" "" (signing_payload_hex_bytes signature0)
         else signing_payload_hex_bytes signature0)
        (pk_hex_bytes (sig_public_key signature0)) newSignature = false ->
      spendingCondition (auth transaction) = Some (SingleSig who n f old) ->
      combine v request
      = Json 400 (ErrorBody signatureNotVerified)
          (Json 200
             (CombineResponse
                ("0x" ++ toString_hex
                           (serialize (set_signature newSignature
                                                     transaction))))
             Return_))
  /\ (forall signature0 signature1 more,
         signatures request = signature0 :: signature1 :: more ->
         combine v request
         = Json 400 (ErrorBody needOnlyOneSignature)
             (combine_signature signature0 transaction)).
Proof.
  intros Hv Hb Hd. split.
  - intros signature0 presign newSignature who n f old
           Hs Hc Hp Hne Hm Hver Hsc.
    rewrite (combine_single v request signature0 buffer transaction)
      by assumption.
    rewrite (combine_signature_presigned signature0 transaction presign)
      by assumption.
    rewrite Hm. unfold combine_verify. rewrite Hver, Hsc. reflexivity.
  - intros signature0 signature1 more Hs. unfold combine.
    rewrite Hv, Hs, Hb, Hd. reflexivity.
Qed.

End CombineProperties.

Section CombineOnSamples.

Import Sample.

Lemma rotate_recovery_byte_witness :
  (rotate_recovery_byte good_signature_hex
   = "01" ++ slice_until_last 2 good_signature_hex
   /\ good_signature_hex = slice_until_last 2 good_signature_hex ++ "01")
  /\ rotate_recovery_byte "01ab" = "01ab"
  /\ combine ok combine_good
     = combine_verify (signature_by good_signature_hex)
                      {| version := 0;
                         auth := {| authType := 4;
                                    spendingCondition :=
                                      Some (SingleSig "signer" 0 0
                                              Impl.emptyMessageSignature) |};
                         payload := "beef" |}
                      {| data := Some (Impl.sign signing_payload key_hex) |}.
Proof.
  split; [|split].
  - apply (proj1 (rotate_recovery_byte_spec good_signature_hex));
      reflexivity.
  - apply (proj1 (proj2 (rotate_recovery_byte_spec "01ab"))).
    left. reflexivity.
  - refine (proj2 (proj2 (rotate_recovery_byte_spec good_signature_hex))
              ok combine_good (signature_by good_signature_hex) _ _ "aabeef"
              eq_refl eq_refl eq_refl eq_refl eq_refl eq_refl eq_refl _).
    discriminate.
Defined.

Lemma combine_goes_on_witness :
  combine ok combine_bad_signature
  = Json 400 (ErrorBody signatureNotVerified)
      (Json 200
         (CombineResponse ("0x0000" ++ "01" ++ Impl.repeat_char "b" 128))
         Return_)
  /\ combine ok combine_two_signatures
     = Json 400 (ErrorBody needOnlyOneSignature)
         (combine_signature (signature_by good_signature_hex)
            {| version := 0;
               auth := {| authType := 4;
                          spendingCondition :=
                            Some (SingleSig "signer" 0 0
                                    Impl.emptyMessageSignature) |};
               payload := "beef" |}).
Proof.
  split.
  - refine (proj1 (combine_goes_on_after_error
                     ok combine_bad_signature _ _ eq_refl eq_refl eq_refl)
              (signature_by bad_signature_hex) "aabeef"
              {| data := Some ("01" ++ Impl.repeat_char "b" 128) |}
              "signer" 0 0 Impl.emptyMessageSignature
              eq_refl eq_refl eq_refl _ eq_refl eq_refl eq_refl).
    discriminate.
  - exact (proj2 (combine_goes_on_after_error
                    ok combine_two_signatures _ _ eq_refl eq_refl eq_refl)
             (signature_by good_signature_hex)
             (signature_by good_signature_hex) [] eq_refl).
Defined.

End CombineOnSamples.

Section PrefixProperties.

Context {H : Helpers}.

(** Prepending ["0x"] to a string without the prefix is what [with0x]
    does to it, and leaves a prefixed string as it is. *)
Lemma with0x_prepend (h : string) :
  (forall s, has0xPrefix ("0x" ++ s) = true) ->
  has0xPrefix h = false ->
  with0x h = with0x ("0x" ++ h).
Proof.
  intros Hpre Hh. unfold with0x. now rewrite Hh, Hpre.
Qed.

(** C10.  For a transaction string [h] without the ["0x"] prefix, the
    hash, parse, submit and combine handlers do on [h] exactly what they
    do on ["0x" ++ h], whatever the rest of the request. *)
Theorem prefix_insensitive (v : ValidSchema) (h : string) :
  (forall s, has0xPrefix ("0x" ++ s) = true) ->
  has0xPrefix h = false ->
  hash v {| signed_transaction := h |}
  = hash v {| signed_transaction := "0x" ++ h |}
  /\ (forall signed,
         parse v {| parse_transaction := h; parse_signed := signed |}
         = parse v {| parse_transaction := "0x" ++ h;
                      parse_signed := signed |})
  /\ submit v {| submit_signed_transaction := h |}
     = submit v {| submit_signed_transaction := "0x" ++ h |}
  /\ (forall sigs,
         combine v {| unsigned_transaction := h; signatures := sigs |}
         = combine v {| unsigned_transaction := "0x" ++ h;
                        signatures := sigs |}).
Proof.
  intros Hpre Hh. pose proof (with0x_prepend h Hpre Hh) as E.
  repeat split; intros.
  - unfold hash. cbn [signed_transaction]. now rewrite E.
  - unfold parse. cbn [parse_transaction parse_signed]. now rewrite E.
  - unfold submit. cbn [submit_signed_transaction]. now rewrite E.
  - unfold combine. cbn [unsigned_transaction signatures]. now rewrite E.
Qed.

End PrefixProperties.

Section PrefixOnSamples.

Import Sample.

Lemma prefix_insensitive_witness :
  hash ok {| signed_transaction := signed_hex |}
  = hash ok {| signed_transaction := "0x" ++ signed_hex |}
  /\ (forall signed,
         parse ok {| parse_transaction := signed_hex;
                     parse_signed := signed |}
         = parse ok {| parse_transaction := "0x" ++ signed_hex;
                       parse_signed := signed |})
  /\ submit ok {| submit_signed_transaction := signed_hex |}
     = submit ok {| submit_signed_transaction := "0x" ++ signed_hex |}
  /\ (forall sigs,
         combine ok {| unsigned_transaction := signed_hex;
                       signatures := sigs |}
         = combine ok {| unsigned_transaction := "0x" ++ signed_hex;
                         signatures := sigs |}).
Proof.
  apply (prefix_insensitive ok signed_hex).
  - intros s. destruct s; reflexivity.
  - reflexivity.
Defined.

End PrefixOnSamples.

Section PreprocessProperties.

Context {H : Helpers}.

Lemma wrong_fee_currency_test (m : RosettaMaxFeeAmount) :
  wrong_fee_currency m ->
  String.eqb (cur_symbol (amt_currency m)) RosettaConstants_symbol
  && (cur_decimals (amt_currency m) =? RosettaConstants_decimals) = false.
Proof.
  intros [E|E].
  - apply String.eqb_neq in E. now rewrite E.
  - apply Z.eqb_neq in E. rewrite E. apply andb_false_r.
Qed.

(** The handler once the three tests on the operation list have passed. *)
Lemma preprocess_checked (v : ValidSchema) (req : PreprocessRequest) :
  valid v = true ->
  List.length (pre_operations req) = 3%nat ->
  isSymbolSupported (pre_operations req) = true ->
  isDecimalsSupported (pre_operations req) = true ->
  preprocess v req
  = match getOptionsFromOperations (pre_operations req) with
    | None => reject invalidOperation
    | Some options =>
        let options := apply_metadata req options in
        match pre_max_fee req with
        | None => preprocess_response options
        | Some [] => Throw_
        | Some (max_fee0 :: _) =>
            if String.eqb (cur_symbol (amt_currency max_fee0))
                          RosettaConstants_symbol
               && (cur_decimals (amt_currency max_fee0)
                   =? RosettaConstants_decimals)
            then preprocess_response
                   (set_max_fee (Some (amt_value max_fee0)) options)
            else reject invalidFee
        end
    end.
Proof.
  intros Hv Hl Hs Hd. unfold preprocess. rewrite Hv, Hl, Hs, Hd. reflexivity.
Qed.

(** C2, as the handler has it.  The checks of a preprocess call run in
    the order: operation count, currency symbol, currency decimals,
    derivation of the transfer options from the operations
    ([invalidOperation] when there are none), currency of the first
    supplied maximum fee; the first one that fails gives the only reply of
    the call. *)
Theorem preprocess_check_order (v : ValidSchema) (req : PreprocessRequest) :
  valid v = true ->
  let ops := pre_operations req in
  (List.length ops <> 3%nat -> preprocess v req = reject invalidOperation)
  /\ (List.length ops = 3%nat -> isSymbolSupported ops = false ->
      preprocess v req = reject invalidCurrencySymbol)
  /\ (List.length ops = 3%nat -> isSymbolSupported ops = true ->
      isDecimalsSupported ops = false ->
      preprocess v req = reject invalidCurrencyDecimals)
  /\ (List.length ops = 3%nat -> isSymbolSupported ops = true ->
      isDecimalsSupported ops = true ->
      getOptionsFromOperations ops = None ->
      preprocess v req = reject invalidOperation)
  /\ (List.length ops = 3%nat -> isSymbolSupported ops = true ->
      isDecimalsSupported ops = true ->
      forall options m rest,
        getOptionsFromOperations ops = Some options ->
        pre_max_fee req = Some (m :: rest) ->
        wrong_fee_currency m ->
        preprocess v req = reject invalidFee)
  /\ (forall w,
         List.length (replies (fst (run w (preprocess v req)))) <= 1)%nat.
Proof.
  intros Hv ops. subst ops. repeat split.
  - intros Hl. unfold preprocess. rewrite Hv.
    apply Nat.eqb_neq in Hl. now rewrite Hl.
  - intros Hl Hs. unfold preprocess. now rewrite Hv, Hl, Hs.
  - intros Hl Hs Hd. unfold preprocess. now rewrite Hv, Hl, Hs, Hd.
  - intros Hl Hs Hd Ho. rewrite preprocess_checked by assumption.
    now rewrite Ho.
  - intros Hl Hs Hd options m rest Ho Hm Hw.
    rewrite preprocess_checked by assumption.
    rewrite Ho, Hm. cbn zeta. now rewrite (wrong_fee_currency_test m Hw).
  - intros w. unfold preprocess. rewrite Hv. cbn [negb].
    destruct (Nat.eqb _ 3); cbn [negb]; [|simpl; lia].
    destruct (isSymbolSupported _); cbn [negb]; [|simpl; lia].
    destruct (isDecimalsSupported _); cbn [negb]; [|simpl; lia].
    destruct (getOptionsFromOperations _) as [options|]; [|simpl; lia].
    cbn zeta. destruct (pre_max_fee req) as [[|m rest]|]; simpl; try lia.
    destruct (_ && _); simpl; lia.
Qed.

(** What an accepted preprocess call answers with. *)
Lemma preprocess_accepted (v : ValidSchema) (req : PreprocessRequest)
      (options : RosettaOptions) :
  preprocess v req = preprocess_response options ->
  exists derived,
    getOptionsFromOperations (pre_operations req) = Some derived
    /\ (options = apply_metadata req derived
        \/ exists x, options = set_max_fee x (apply_metadata req derived)).
Proof.
  unfold preprocess, preprocess_response, reject, reject_schema.
  destruct (valid v); cbn [negb]; [|discriminate].
  destruct (Nat.eqb _ 3); cbn [negb]; [|discriminate].
  destruct (isSymbolSupported _); cbn [negb]; [|discriminate].
  destruct (isDecimalsSupported _); cbn [negb]; [|discriminate].
  destruct (getOptionsFromOperations _) as [derived|]; [|discriminate].
  cbn zeta. intros E. exists derived. split; [reflexivity|].
  destruct (pre_max_fee req) as [[|m rest]|]; try discriminate.
  - destruct (_ && _); [|discriminate].
    injection E as E. right. eexists. symmetry. exact E.
  - injection E as E. left. now symmetry.
Qed.

(** The gas overrides of the metadata object, through the metadata block. *)
Lemma apply_metadata_gas (req : PreprocessRequest) (md : PreprocessMetadata)
      (derived : RosettaOptions) :
  pre_metadata req = Some md ->
  (forall x, md_gas_limit md = Some x -> x <> 0 ->
             gas_limit (apply_metadata req derived) = Some x)
  /\ (forall x, md_gas_price md = Some x -> x <> 0 ->
                gas_price (apply_metadata req derived) = Some x).
Proof.
  intros Hm. unfold apply_metadata. rewrite Hm. split; intros x Hx Hne.
  - rewrite Hx. apply Z.eqb_neq in Hne. simpl. rewrite Hne. cbn [negb].
    destruct (truthy_number (md_gas_price md)),
      (truthy_number (pre_suggested_fee_multiplier req)); reflexivity.
  - rewrite Hx. apply Z.eqb_neq in Hne.
    destruct (truthy_number (md_gas_limit md)); simpl; rewrite Hne;
      cbn [negb];
      destruct (truthy_number (pre_suggested_fee_multiplier req));
      reflexivity.
Qed.

(** The fee multiplier of the options comes from the request body, and
    only inside the metadata block. *)
Lemma apply_metadata_multiplier (req : PreprocessRequest)
      (derived : RosettaOptions) :
  suggested_fee_multiplier (apply_metadata req derived)
  = match pre_metadata req with
    | Some _ =>
        if truthy_number (pre_suggested_fee_multiplier req)
        then pre_suggested_fee_multiplier req
        else suggested_fee_multiplier derived
    | None => suggested_fee_multiplier derived
    end.
Proof.
  unfold apply_metadata. destruct (pre_metadata req) as [md|]; [|reflexivity].
  destruct (truthy_number (md_gas_limit md)),
    (truthy_number (md_gas_price md)),
    (truthy_number (pre_suggested_fee_multiplier req)); reflexivity.
Qed.

(** C8, as the handler has it.  In the options of an accepted preprocess
    call, a non-zero [gas_limit] and a non-zero [gas_price] of the
    metadata object are carried over. *)
Theorem preprocess_metadata_overrides (v : ValidSchema)
        (req : PreprocessRequest) (md : PreprocessMetadata)
        (options : RosettaOptions) :
  pre_metadata req = Some md ->
  preprocess v req = preprocess_response options ->
  (forall x, md_gas_limit md = Some x -> x <> 0 ->
             gas_limit options = Some x)
  /\ (forall x, md_gas_price md = Some x -> x <> 0 ->
                gas_price options = Some x).
Proof.
  intros Hm Hr.
  destruct (preprocess_accepted v req options Hr) as (derived & _ & Ho).
  destruct (apply_metadata_gas req md derived Hm) as [Gl Gp].
  destruct Ho as [->|[x ->]]; split; intros y Hy Hne; cbn;
    first [now apply Gl | now apply Gp].
Qed.

End PreprocessProperties.

Section PreprocessOnSamples.

Import Sample.

Lemma preprocess_check_order_witness :
  preprocess ok preprocess_stray_with_foreign_fee = reject invalidOperation
  /\ preprocess ok preprocess_foreign_fee = reject invalidFee.
Proof.
  split.
  - apply (proj1 (proj2 (proj2 (proj2
             (preprocess_check_order ok preprocess_stray_with_foreign_fee
                                     eq_refl)))));
      reflexivity.
  - refine (proj1 (proj2 (proj2 (proj2 (proj2
             (preprocess_check_order ok preprocess_foreign_fee eq_refl)))))
              eq_refl eq_refl eq_refl _ _ _ eq_refl eq_refl _).
    left. discriminate.
Defined.

(** C2 as listed fails: three operations in the native currency from
    which no options can be derived, with a maximum fee in another
    currency, are answered with [invalidOperation], not [invalidFee]. *)
Lemma preprocess_order_counterexample :
  ~ preprocess_order_as_listed ok preprocess_stray_with_foreign_fee.
Proof.
  intros C. destruct (C eq_refl) as (_ & _ & _ & C4).
  assert (W : wrong_fee_currency {| amt_value := "1000"; amt_currency := btc |})
    by (left; discriminate).
  assert (E : preprocess ok preprocess_stray_with_foreign_fee
              = reject invalidOperation) by reflexivity.
  rewrite E in C4.
  specialize (C4 eq_refl eq_refl eq_refl _ _ eq_refl W).
  discriminate C4.
Qed.

Lemma preprocess_metadata_overrides_witness :
  gas_limit
    (apply_metadata preprocess_multiplier_in_metadata transfer_options)
  = Some 5000
  /\ gas_price
       (apply_metadata preprocess_multiplier_in_metadata transfer_options)
     = Some 3.
Proof.
  assert (E : preprocess ok preprocess_multiplier_in_metadata
              = preprocess_response
                  (apply_metadata preprocess_multiplier_in_metadata
                                  transfer_options))
    by (vm_compute; reflexivity).
  destruct (preprocess_metadata_overrides
              ok preprocess_multiplier_in_metadata
              {| md_gas_limit := Some 5000; md_gas_price := Some 3;
                 md_suggested_fee_multiplier := Some 2 |}
              (apply_metadata preprocess_multiplier_in_metadata
                              transfer_options)
              eq_refl E) as [Gl Gp].
  split.
  - apply Gl; [reflexivity|discriminate].
  - apply Gp; [reflexivity|discriminate].
Defined.

(** C8 as listed fails twice: a fee multiplier given in the metadata
    object does not reach the options, and neither does a gas limit of
    zero. *)
Lemma overrides_counterexample :
  ~ overrides_carried_as_listed ok preprocess_multiplier_in_metadata
  /\ ~ overrides_carried_as_listed ok preprocess_zero_gas_limit.
Proof.
  split; intros C.
  - destruct (C _ _ eq_refl eq_refl) as (_ & _ & Cm).
    specialize (Cm 2 eq_refl). discriminate Cm.
  - destruct (C _ _ eq_refl eq_refl) as (Cl & _).
    specialize (Cl 0 eq_refl). discriminate Cl.
Qed.

End PreprocessOnSamples.

Section MetadataProperties.

Context {H : Helpers}.

Lemma run_reject (w : World) (e : RosettaError) :
  run w (reject e) = ([Replied 400 (ErrorBody e)], Finished).
Proof. reflexivity. Qed.

Lemma sender_test (o : RosettaOptions) :
  (match sender_address o with
   | None | Some EmptyString => false
   | Some a => negb (isValidC32Address a)
   end = false /\ sender_ok o)
  \/ (match sender_address o with
      | None | Some EmptyString => false
      | Some a => negb (isValidC32Address a)
      end = true /\ ~ sender_ok o).
Proof.
  unfold sender_ok. destruct (sender_address o) as [[|c a]|].
  - left. split; [reflexivity|]. intros a E N. congruence.
  - destruct (isValidC32Address (String c a)) eqn:Ev; cbn [negb].
    + left. split; [reflexivity|]. intros b E _. congruence.
    + right. split; [reflexivity|]. intros S.
      specialize (S _ eq_refl). rewrite Ev in S.
      assert (false = true) by (apply S; discriminate). discriminate.
  - left. split; [reflexivity|]. intros a E. discriminate.
Qed.

Lemma decimals_test (o : RosettaOptions) :
  match decimals o with
  | Some d => d =? RosettaConstants_decimals
  | None => false
  end = true <-> decimals_ok o.
Proof.
  unfold decimals_ok. destruct (decimals o) as [d|].
  - rewrite Z.eqb_eq. split; congruence.
  - split; discriminate.
Qed.

Lemma metadata_key_stage_cases (request : MetadataRequest) (r : string) :
  (~ key_ok request
   /\ metadata_key_stage request r = reject invalidPublicKey)
  \/ (key_ok request
      /\ metadata_key_stage request r
         = metadata_lookup (meta_options request) r).
Proof.
  unfold metadata_key_stage, key_ok, key_matches.
  destruct (meta_public_keys request) as [[|pk rest]|].
  - right. split; [|reflexivity]. intros pk rest E. discriminate.
  - destruct (derived_address pk _) as [[a|]|] eqn:Ed.
    + destruct (opt_string_eqb (Some a) _) eqn:Ea; cbn [negb].
      * right. split; [|reflexivity]. intros pk' rest' E.
        injection E as -> ->. exists a. split; [exact Ed|].
        symmetry. now apply opt_string_eqb_eq.
      * left. split; [|reflexivity]. intros K.
        destruct (K pk rest eq_refl) as (b & Eb & Es).
        rewrite Ed in Eb. injection Eb as ->.
        apply opt_string_eqb_neq in Ea. congruence.
    + left. split; [|reflexivity]. intros K.
      destruct (K pk rest eq_refl) as (b & Eb & _).
      rewrite Ed in Eb. discriminate.
    + left. split; [|reflexivity]. intros K.
      destruct (K pk rest eq_refl) as (b & Eb & _).
      rewrite Ed in Eb. discriminate.
  - right. split; [|reflexivity]. intros pk rest E. discriminate.
Qed.

(** Every way through the handler after the schema gate. *)
Lemma metadata_cases (v : ValidSchema) (request : MetadataRequest) :
  valid v = true ->
  let o := meta_options request in
  (~ type_ok o /\ metadata v request = reject invalidTransactionType)
  \/ (type_ok o /\ ~ sender_ok o
      /\ metadata v request = reject invalidSender)
  \/ (type_ok o /\ sender_ok o /\ ~ symbol_ok o
      /\ metadata v request = reject invalidCurrencySymbol)
  \/ (type_ok o /\ sender_ok o /\ symbol_ok o /\ ~ decimals_ok o
      /\ metadata v request = reject invalidCurrencyDecimals)
  \/ (type_ok o /\ sender_ok o /\ symbol_ok o /\ decimals_ok o
      /\ ~ recipient_ok o
      /\ metadata v request = reject invalidRecipient)
  \/ (type_ok o /\ sender_ok o /\ symbol_ok o /\ decimals_ok o
      /\ recipient_ok o /\ ~ key_ok request
      /\ metadata v request = reject invalidPublicKey)
  \/ (type_ok o /\ sender_ok o /\ symbol_ok o /\ decimals_ok o
      /\ recipient_ok o /\ key_ok request
      /\ exists r, token_transfer_recipient_address o = Some r
                   /\ metadata v request = metadata_lookup o r).
Proof.
  intros Hv o. unfold metadata. rewrite Hv. cbn [negb]. fold o.
  destruct (opt_string_eqb (type_ o) (Some "token_transfer")) eqn:Et;
    cbn [negb].
  2:{ left. split; [|reflexivity]. now apply opt_string_eqb_neq in Et. }
  apply opt_string_eqb_eq in Et. right.
  destruct (sender_test o) as [[Es Hs]|[Es Hs]]; rewrite Es.
  2:{ left. auto. }
  right.
  destruct (opt_string_eqb (symbol o) (Some RosettaConstants_symbol)) eqn:Ey;
    cbn [negb].
  2:{ left. apply opt_string_eqb_neq in Ey. auto. }
  apply opt_string_eqb_eq in Ey. right.
  destruct (match decimals o with
            | Some d => d =? RosettaConstants_decimals
            | None => false
            end) eqn:Ed; cbn [negb].
  2:{ left. repeat (split; [assumption|]). split; [|reflexivity].
      intros D. apply decimals_test in D. congruence. }
  apply decimals_test in Ed. right.
  destruct (token_transfer_recipient_address o) as [r|] eqn:Er.
  2:{ left. repeat (split; [assumption|]). split; [|reflexivity].
      intros (r & E & _). congruence. }
  destruct (isValidC32Address r) eqn:Ev; cbn [negb].
  2:{ left. repeat (split; [assumption|]). split; [|reflexivity].
      intros (r' & E & Ev'). congruence. }
  right.
  assert (Hr : recipient_ok o) by (exists r; auto).
  destruct (metadata_key_stage_cases request r) as [[K E]|[K E]];
    rewrite E.
  - left. auto 10.
  - right. repeat (split; [assumption|]). exists r. auto.
Qed.

(** The events of the two lookups: no reply other than a final 200. *)
Lemma run_metadata_lookup (w : World) (o : RosettaOptions) (r : string)
      (st : Z) (b : ResponseBody) :
  In (Replied st b) (fst (run w (metadata_lookup o r))) -> st = 200.
Proof.
  unfold metadata_lookup. unfold run; cbn [run_from].
  destruct (w_getAccount w r) as [i|]; unfold run; cbn [run_from fst].
  - destruct (w_getCurrentBlock w) as [blk|]; unfold run; cbn [run_from fst In].
    + intros [E|[E|[E|[]]]]; try discriminate. now injection E.
    + intros [E|[E|[]]]; discriminate.
  - intros [E|[]]. discriminate.
Qed.

(** C6.  A metadata call that fails one of its checks (transaction type,
    sender address, currency symbol, decimals, recipient address, supplied
    public key) is answered with the error of the first failing check, and
    that reply is all the call does: neither the account service nor the
    chain tip is asked. *)
Theorem metadata_rejects_before_lookup (v : ValidSchema)
        (request : MetadataRequest) :
  valid v = true ->
  let o := meta_options request in
  ((~ type_ok o -> metadata v request = reject invalidTransactionType)
   /\ (type_ok o -> ~ sender_ok o ->
       metadata v request = reject invalidSender)
   /\ (type_ok o -> sender_ok o -> ~ symbol_ok o ->
       metadata v request = reject invalidCurrencySymbol)
   /\ (type_ok o -> sender_ok o -> symbol_ok o -> ~ decimals_ok o ->
       metadata v request = reject invalidCurrencyDecimals)
   /\ (type_ok o -> sender_ok o -> symbol_ok o -> decimals_ok o ->
       ~ recipient_ok o ->
       metadata v request = reject invalidRecipient)
   /\ (type_ok o -> sender_ok o -> symbol_ok o -> decimals_ok o ->
       recipient_ok o -> ~ key_ok request ->
       metadata v request = reject invalidPublicKey))
  /\ (~ (type_ok o /\ sender_ok o /\ symbol_ok o /\ decimals_ok o
         /\ recipient_ok o /\ key_ok request) ->
      exists e, In e metadata_errors /\ metadata v request = reject e)
  /\ (forall w st b,
         In (Replied st b) (fst (run w (metadata v request))) ->
         st <> 200 ->
         run w (metadata v request) = ([Replied st b], Finished)
         /\ existsb is_network_event (fst (run w (metadata v request)))
            = false).
Proof.
  intros Hv o. pose proof (metadata_cases v request Hv) as C.
  fold o in C. split; [|split].
  - repeat split; intros;
      destruct C as [C|[C|[C|[C|[C|[C|C]]]]]]; tauto.
  - intros N. unfold metadata_errors.
    destruct C as [C|[C|[C|[C|[C|[C|C]]]]]].
    + exists invalidTransactionType. simpl. intuition.
    + exists invalidSender. simpl. intuition.
    + exists invalidCurrencySymbol. simpl. intuition.
    + exists invalidCurrencyDecimals. simpl. intuition.
    + exists invalidRecipient. simpl. intuition.
    + exists invalidPublicKey. simpl. intuition.
    + exfalso. apply N. intuition.
  - intros w st b Hin Hst.
    assert (R : (exists e, metadata v request = reject e)
                \/ exists r, metadata v request = metadata_lookup o r).
    { destruct C as [C|[C|[C|[C|[C|[C|C]]]]]];
        try (left; eexists; apply C).
      right. destruct C as (_ & _ & _ & _ & _ & _ & r & _ & E). eauto. }
    destruct R as [[e E]|[r E]]; rewrite E in *.
    + rewrite run_reject in *. cbn [fst In] in Hin.
      destruct Hin as [Hin|[]]. injection Hin as <- <-. auto.
    + apply run_metadata_lookup in Hin. contradiction.
Qed.

(** C7.  With a public key supplied, a metadata call replies 200 only if
    the address derived from the first key is the declared sender; once
    the earlier checks have passed, a key whose address cannot be derived
    or differs from the sender is answered with [invalidPublicKey]. *)
Theorem metadata_key_binds_sender (v : ValidSchema)
        (request : MetadataRequest) (pk : RosettaPublicKey)
        (rest : list RosettaPublicKey) :
  meta_public_keys request = Some (pk :: rest) ->
  let o := meta_options request in
  (forall w body,
      In (Replied 200 body) (fst (run w (metadata v request))) ->
      key_matches request pk)
  /\ (valid v = true ->
      type_ok o -> sender_ok o -> symbol_ok o -> decimals_ok o ->
      recipient_ok o -> ~ key_matches request pk ->
      metadata v request = reject invalidPublicKey).
Proof.
  intros Hk o. split.
  - intros w body Hin. destruct (valid v) eqn:Hv.
    + destruct (metadata_cases v request Hv)
        as [C|[C|[C|[C|[C|[C|C]]]]]];
        try (exfalso;
             repeat match type of C with _ /\ _ => destruct C as [_ C] end;
             rewrite C, run_reject in Hin; cbn [fst In] in Hin;
             destruct Hin as [Hin|[]]; discriminate Hin).
      destruct C as (_ & _ & _ & _ & _ & K & _). exact (K pk rest Hk).
    + exfalso. unfold metadata in Hin. rewrite Hv in Hin.
      cbn in Hin. destruct Hin as [Hin|[]]. discriminate Hin.
  - intros Hv Ht Hs Hy Hd Hr Hn.
    assert (N : ~ key_ok request).
    { intros K. apply Hn. exact (K pk rest Hk). }
    destruct (metadata_cases v request Hv)
      as [C|[C|[C|[C|[C|[C|C]]]]]]; fold o in C; tauto.
Qed.

End MetadataProperties.

Section MetadataOnSamples.

Import Sample.

Lemma other_key_does_not_match :
  ~ key_matches metadata_other_key (secp other_key_hex).
Proof.
  intros (a & Ea & Es). vm_compute in Ea, Es. congruence.
Qed.

Lemma transfer_options_pass :
  type_ok transfer_options /\ sender_ok transfer_options
  /\ symbol_ok transfer_options /\ decimals_ok transfer_options
  /\ recipient_ok transfer_options.
Proof.
  repeat split.
  - intros a E _. injection E as <-. reflexivity.
  - exists recipient. split; reflexivity.
Qed.

Lemma metadata_rejects_witness :
  metadata ok metadata_other_key = reject invalidPublicKey
  /\ run world (metadata ok metadata_other_key)
     = ([Replied 400 (ErrorBody invalidPublicKey)], Finished)
  /\ existsb is_network_event
             (fst (run world (metadata ok metadata_other_key))) = false.
Proof.
  destruct (metadata_rejects_before_lookup ok metadata_other_key eq_refl)
    as ((_ & _ & _ & _ & _ & K) & _ & R).
  destruct transfer_options_pass as (T & S & Y & D & Rc).
  split.
  - apply K; try assumption. intros N.
    exact (other_key_does_not_match (N _ _ eq_refl)).
  - apply (R world 400 (ErrorBody invalidPublicKey)).
    + left. reflexivity.
    + discriminate.
Defined.

Lemma metadata_key_binds_sender_witness :
  key_matches metadata_own_key (secp key_hex)
  /\ metadata ok metadata_other_key = reject invalidPublicKey.
Proof.
  destruct transfer_options_pass as (T & S & Y & D & Rc).
  split.
  - apply (proj1 (metadata_key_binds_sender
                    ok metadata_own_key (secp key_hex) [] eq_refl)
             world
             (MetadataResponse transfer_options 7 (Some "0xb10c"))).
    right. right. left. reflexivity.
  - apply (proj2 (metadata_key_binds_sender
                    ok metadata_other_key (secp other_key_hex) [] eq_refl));
      try assumption; try reflexivity.
    exact other_key_does_not_match.
Defined.

End MetadataOnSamples.

Section PayloadsProperties.

Context {H : Helpers}.

(** The nonce of an account as a [BN]: made of a number below 2^53 in
    magnitude, and not of any other. *)
Lemma nonce_BN_small (accountInfo : AccountInfo) :
  Z.abs (nonce accountInfo) < 2 ^ 53 ->
  nonce_BN accountInfo
  = Returned (if negb (nonce accountInfo =? 0) then nonce accountInfo
              else 0).
Proof.
  intros B. unfold nonce_BN, BN_of_number.
  destruct (nonce accountInfo =? 0); cbn [negb]; [reflexivity|].
  apply Z.ltb_lt in B. now rewrite B.
Qed.

Lemma nonce_BN_large (accountInfo : AccountInfo) :
  2 ^ 53 <= Z.abs (nonce accountInfo) ->
  nonce_BN accountInfo = Thrown.
Proof.
  intros B. unfold nonce_BN, BN_of_number.
  destruct (nonce accountInfo =? 0) eqn:E; cbn [negb].
  - apply Z.eqb_eq in E. rewrite E in B. cbn in B. lia.
  - apply Z.ltb_ge in B. now rewrite B.
Qed.

(** C4.  A payloads call that has passed the amount, fee, recipient and
    sender tests and carries a list of public keys first asks for the
    sender's account.  Once that lookup has answered, whatever the answer,
    the call replies [needOnePublicKey] when the list does not hold
    exactly one key, and [invalidCurveType] when its one key is not on
    secp256k1: the rejected calls consist of the lookup and the one reply,
    and no transaction is built.  Only with one secp256k1 key does the
    call go on, to build the unsigned transfer when the nonce of the
    account makes a [BN] and to end by an exception when it does not.
    When the lookup fails the call ends there, by an exception, with no
    reply. *)
Theorem payloads_key_count (v : ValidSchema) (req : PayloadsRequest)
        (options : RosettaOptions) (pks : list RosettaPublicKey)
        (amount' fees recipientAddress senderAddress : string) :
  valid v = true ->
  getOptionsFromOperations (pay_operations req) = Some options ->
  amount options = Some amount' -> amount' <> "" ->
  fee options = Some fees -> fees <> "" ->
  pay_public_keys req = Some pks ->
  token_transfer_recipient_address options = Some recipientAddress ->
  recipientAddress <> "" ->
  sender_address options = Some senderAddress -> senderAddress <> "" ->
  exists k,
    payloads v req = GetAccount senderAddress k
    /\ (List.length pks <> 1%nat ->
        forall accountInfo, k accountInfo = reject needOnePublicKey)
    /\ (forall pk, pks = [pk] -> pk_curve_type pk <> "secp256k1" ->
        forall accountInfo, k accountInfo = reject invalidCurveType)
    /\ (forall pk, pks = [pk] -> pk_curve_type pk = "secp256k1" ->
        forall accountInfo,
        (Z.abs (nonce accountInfo) < 2 ^ 53 ->
         exists opts k',
           k accountInfo = MakeUnsignedSTXTokenTransfer opts k'
           /\ tt_publicKey opts = pk_hex_bytes pk)
        /\ (2 ^ 53 <= Z.abs (nonce accountInfo) ->
            k accountInfo = Throw_))
    /\ (forall w accountInfo,
           w_getAccount w senderAddress = Returned accountInfo ->
           List.length pks <> 1%nat ->
           run w (payloads v req)
           = ([AskedAccount senderAddress;
               Replied 400 (ErrorBody needOnePublicKey)], Finished))
    /\ (forall w accountInfo pk,
           w_getAccount w senderAddress = Returned accountInfo ->
           pks = [pk] -> pk_curve_type pk <> "secp256k1" ->
           run w (payloads v req)
           = ([AskedAccount senderAddress;
               Replied 400 (ErrorBody invalidCurveType)], Finished))
    /\ (forall w,
           w_getAccount w senderAddress = Thrown ->
           run w (payloads v req)
           = ([AskedAccount senderAddress], Crashed)).
Proof.
  intros Hv Ho Ha Hane Hf Hfne Hk Hr Hrne Hs Hsne.
  unfold payloads. rewrite Hv, Ho, Ha, Hf, Hk, Hr, Hs. cbn [negb].
  destruct amount' as [|ca amount']; [congruence|].
  destruct fees as [|cf fees]; [congruence|].
  destruct recipientAddress as [|cr recipientAddress]; [congruence|].
  destruct senderAddress as [|cs senderAddress]; [congruence|].
  eexists. split; [reflexivity|]. cbn beta.
  split; [|split; [|split; [|split; [|split]]]].
  - intros Hl accountInfo. apply Nat.eqb_neq in Hl. now rewrite Hl.
  - intros pk -> Hc accountInfo. cbn [List.length Nat.eqb negb].
    apply String.eqb_neq in Hc. now rewrite Hc.
  - intros pk -> Hc accountInfo. cbn [List.length Nat.eqb negb].
    rewrite Hc, String.eqb_refl. cbn [negb]. split; intros B.
    + rewrite (nonce_BN_small _ B).
      eexists. eexists. split; reflexivity.
    + now rewrite (nonce_BN_large _ B).
  - intros w accountInfo Hw Hl. unfold run; cbn [run_from]. rewrite Hw.
    apply Nat.eqb_neq in Hl. now rewrite Hl.
  - intros w accountInfo pk Hw -> Hc. unfold run; cbn [run_from]. rewrite Hw.
    cbn [List.length Nat.eqb negb].
    apply String.eqb_neq in Hc. now rewrite Hc.
  - intros w Hw. unfold run; cbn [run_from]. now rewrite Hw.
Qed.

End PayloadsProperties.

Section PayloadsOnSamples.

Import Sample.

Lemma payloads_key_count_witness :
  (exists k, payloads ok payloads_two_keys = GetAccount sender k
             /\ forall accountInfo,
                  k accountInfo = reject needOnePublicKey)
  /\ (exists k, payloads ok payloads_other_curve = GetAccount sender k
                /\ forall accountInfo,
                     k accountInfo = reject invalidCurveType).
Proof.
  split.
  - destruct (payloads_key_count
                ok payloads_two_keys transfer_options
                [secp key_hex; secp other_key_hex]
                "100" "180" recipient sender)
      as (k & E & N & _ & _ & _ & _ & _);
      try reflexivity; try discriminate.
    exists k. split; [exact E|]. apply N. discriminate.
  - destruct (payloads_key_count
                ok payloads_other_curve transfer_options
                [{| pk_hex_bytes := key_hex;
                    pk_curve_type := "edwards25519" |}]
                "100" "180" recipient sender)
      as (k & E & _ & C & _ & _ & _ & _);
      try reflexivity; try discriminate.
    exists k. split; [exact E|]. apply (C _ eq_refl). discriminate.
Defined.

(** C4 as listed fails: with two keys, and the account service not
    answering, the handler ends at the lookup, by an exception, and
    replies nothing. *)
Lemma payloads_key_count_counterexample :
  ~ payloads_key_count_as_listed ok payloads_two_keys MoreSamples.offline.
Proof.
  intros C.
  assert (E : run MoreSamples.offline (payloads ok payloads_two_keys)
              = ([AskedAccount sender], Crashed)) by reflexivity.
  assert (O : getOptionsFromOperations (pay_operations payloads_two_keys)
              = Some transfer_options) by reflexivity.
  assert (U : List.length [secp key_hex; secp other_key_hex] <> 1%nat)
    by discriminate.
  destruct (C transfer_options [secp key_hex; secp other_key_hex]
              "100" "180" recipient sender eq_refl O eq_refl
              ltac:(discriminate) eq_refl ltac:(discriminate) eq_refl
              eq_refl ltac:(discriminate) eq_refl ltac:(discriminate))
    as [N _].
  specialize (N U). rewrite E in N. cbn [fst In] in N.
  destruct N as [N|[]]. discriminate N.
Qed.

End PayloadsOnSamples.

Module TokensProperties.

Import Tokens.

Section Compliance.

Variable loose_neq : ClarityAbiArg -> option ClarityAbiArg -> bool.

(** What the [find] callback computes: the walk over the arguments
    leaves no trace in its result. *)
Lemma matches_name_and_arity (f g : ClarityAbiFunction) :
  matches loose_neq f g
  = String.eqb (name g) (name f)
    && Nat.eqb (List.length (args g)) (List.length (args f)).
Proof.
  unfold matches.
  destruct (String.eqb (name g) (name f)
            && Nat.eqb (List.length (args g)) (List.length (args f)));
    reflexivity.
Qed.

Lemma findFunction_spec (f : ClarityAbiFunction)
      (l : list ClarityAbiFunction) :
  findFunction loose_neq f l = true
  <-> exists g, In g l /\ name g = name f
                /\ List.length (args g) = List.length (args f).
Proof.
  unfold findFunction. split.
  - destruct (find (matches loose_neq f) l) as [g|] eqn:E;
      [|discriminate].
    intros _. apply find_some in E. destruct E as [Hin Hm].
    rewrite matches_name_and_arity in Hm.
    apply andb_true_iff in Hm. destruct Hm as [Hn Ha].
    exists g. repeat split; auto.
    + now apply String.eqb_eq.
    + now apply Nat.eqb_eq.
  - intros (g & Hin & Hn & Ha).
    destruct (find (matches loose_neq f) l) as [g'|] eqn:E;
      [reflexivity|].
    pose proof (find_none _ _ E g Hin) as N.
    rewrite matches_name_and_arity, Hn, Ha in N.
    now rewrite String.eqb_refl, Nat.eqb_refl in N.
Qed.

(** C9.  The compliance test accepts a contract exactly when each
    function of the standard has, among the functions of the contract,
    one of the same name with as many arguments; argument types play no
    part, and a contract whose [transfer] takes four booleans passes
    the fungible-token test. *)
Theorem isCompliant_ignores_argument_types :
  (forall contractAbi standard,
      isCompliant loose_neq contractAbi standard = true
      <-> forall f, In f standard ->
                    exists g, In g (functions contractAbi)
                              /\ name g = name f
                              /\ List.length (args g)
                                 = List.length (args f))
  /\ (isCompliant loose_neq odd_contract FT_FUNCTIONS = true
      /\ exists f g,
           In f FT_FUNCTIONS /\ In g (functions odd_contract)
           /\ name g = name f
           /\ map arg_type (args g) <> map arg_type (args f)).
Proof.
  split.
  - intros contractAbi standard. unfold isCompliant.
    rewrite forallb_forall. split; intros A f Hin.
    + now apply findFunction_spec, A.
    + now apply findFunction_spec, A.
  - split.
    + reflexivity.
    + exists (hd odd_transfer FT_FUNCTIONS), odd_transfer.
      simpl. repeat split; auto. discriminate.
Qed.

End Compliance.

End TokensProperties.

(** ** Further properties of the construction router *)

Section MoreStringFacts.

Lemma prefix_append (p s : string) : String.prefix p (p ++ s) = true.
Proof.
  induction p as [|c p IH]; simpl.
  - destruct s; reflexivity.
  - destruct (Ascii.ascii_dec c c) as [_|N]; [exact IH|now elim N].
Qed.

Lemma drop_append (p s : string) : drop (String.length p) (p ++ s) = s.
Proof. induction p as [|c p IH]; simpl; [reflexivity|exact IH]. Qed.

(** [(p + s).replace(p, r)] is [r + s]. *)
Lemma replace_prepended (p r s : string) : replace p r (p ++ s) = r ++ s.
Proof.
  destruct p as [|c p].
  - simpl. destruct s; reflexivity.
  - change (replace (String c p) r (String c p ++ s))
      with (if String.prefix (String c p) (String c p ++ s)
            then r ++ drop (String.length (String c p)) (String c p ++ s)
            else String c (replace (String c p) r (p ++ s))).
    now rewrite prefix_append, drop_append.
Qed.

Lemma take_length (n : nat) (s : string) :
  String.length (take n s) = Nat.min n (String.length s).
Proof.
  revert s. induction n as [|n IH]; intros [|c s]; simpl; auto.
Qed.

Lemma append_length (a b : string) :
  String.length (a ++ b) = (String.length a + String.length b)%nat.
Proof. induction a as [|c a IH]; simpl; [reflexivity|now rewrite IH]. Qed.

End MoreStringFacts.

Section DeriveProperties.

Context {H : Helpers}.

(** What /derive answers with is the address the metadata handler derives
    from the same key. *)
Lemma derive_valid (v : ValidSchema) (req : DeriveRequest) :
  valid v = true ->
  derive v req
  = match derived_address (derive_public_key req)
                          (network (derive_network_identifier req)) with
    | Returned (Some a) => [(200, DeriveResponse a)]
    | _ => [(400, DeriveError invalidPublicKey)]
    end.
Proof.
  intros Hv. unfold derive, derived_address. rewrite Hv. cbn [negb].
  destruct (publicKeyToBitcoinAddress _ _) as [[btc|]|]; try reflexivity.
  destruct (bitcoinAddressToSTXAddress btc); reflexivity.
Qed.

(** X1.  /derive sends exactly one reply.  To a request the schema
    accepts the handler returns after it.  To one whose schema error
    mentions the allowed values the reply is [invalidCurveType]; that
    reply is not followed by a [return], and the handler ends by the
    exception of its second [res.json], so the schema error is never
    sent.  Every other schema error is sent as the reply. *)
Theorem derive_reply_count (v : ValidSchema) (req : DeriveRequest) :
  List.length (fst (deliver (derive v req))) = 1%nat
  /\ (valid v = true ->
      deliver (derive v req) = (derive v req, Finished))
  /\ (valid v = false ->
      forall e, error v = Some e ->
      JsMore.includes "should be equal to one of the allowed values" e
      = true ->
      deliver (derive v req)
      = ([(400, DeriveError invalidCurveType)], Crashed))
  /\ (valid v = false ->
      (forall e, error v = Some e ->
       JsMore.includes "should be equal to one of the allowed values" e
       = false) ->
      deliver (derive v req) = ([(400, DeriveSchemaError v)], Finished)).
Proof.
  assert (V : valid v = true ->
              exists c, derive v req = [c]).
  { intros Hv. rewrite derive_valid by assumption.
    destruct (derived_address _ _) as [[a|]|]; eexists; reflexivity. }
  split; [|split; [|split]].
  - destruct (valid v) eqn:Hv.
    + destruct (V eq_refl) as [c ->]. reflexivity.
    + unfold derive. rewrite Hv. cbn [negb].
      destruct (error v) as [e|]; [|reflexivity].
      now destruct (JsMore.includes _ e).
  - intros Hv. destruct (V Hv) as [c ->]. reflexivity.
  - intros Hv e He Hi. unfold derive. now rewrite Hv, He, Hi.
  - intros Hv Hn. unfold derive. rewrite Hv. cbn [negb].
    destruct (error v) as [e|]; [|reflexivity].
    now rewrite (Hn e eq_refl).
Qed.

(** X2.  /derive and /metadata agree on keys: once the other checks of a
    metadata call have passed, the call goes on to its lookups exactly when
    /derive, asked about the first supplied key on the same network,
    answers with the declared sender address; otherwise it is answered
    with [invalidPublicKey]. *)
Theorem metadata_accepts_what_derive_answers (v : ValidSchema)
        (request : MetadataRequest) (pk : RosettaPublicKey)
        (rest : list RosettaPublicKey) (r : string) :
  valid v = true ->
  meta_public_keys request = Some (pk :: rest) ->
  let o := meta_options request in
  let asked := {| derive_public_key := pk;
                  derive_network_identifier :=
                    meta_network_identifier request |} in
  type_ok o -> sender_ok o -> symbol_ok o -> decimals_ok o ->
  token_transfer_recipient_address o = Some r ->
  isValidC32Address r = true ->
  ((exists a, derive v asked = [(200, DeriveResponse a)]
              /\ sender_address o = Some a) ->
   metadata v request = metadata_lookup o r)
  /\ (~ (exists a, derive v asked = [(200, DeriveResponse a)]
                   /\ sender_address o = Some a) ->
      metadata v request = reject invalidPublicKey).
Proof.
  intros Hv Hk o asked Ht Hs Hy Hd Hr Hvr.
  assert (Rok : recipient_ok o) by (exists r; auto).
  assert (K : key_ok request
              <-> exists a, derive v asked = [(200, DeriveResponse a)]
                            /\ sender_address o = Some a).
  { unfold key_ok, key_matches. rewrite (derive_valid v asked Hv).
    cbn [asked derive_public_key derive_network_identifier].
    split.
    - intros A. destruct (A pk rest Hk) as (a & Ea & Es).
      exists a. now rewrite Ea.
    - intros (a & Ea & Es) pk' rest' Hk'. rewrite Hk in Hk'.
      injection Hk' as <- <-. exists a. split; [|exact Es].
      destruct (derived_address pk _) as [[b|]|]; try discriminate.
      now injection Ea as ->. }
  pose proof (metadata_cases v request Hv) as C. fold o in C.
  split; intros A.
  - apply K in A.
    destruct C as [C|[C|[C|[C|[C|[C|C]]]]]]; try tauto.
    destruct C as (_ & _ & _ & _ & _ & _ & r' & Er & E).
    rewrite E. congruence.
  - assert (N : ~ key_ok request) by (intros B; apply A, K, B).
    destruct C as [C|[C|[C|[C|[C|[C|C]]]]]]; tauto.
Qed.

(** X3.  A leading ["0x"] on a public key makes no difference: the derived
    address, the /derive replies and the /metadata call are the same with
    and without it. *)
Theorem key_prefix_insensitive (v : ValidSchema) (h curve : string) :
  (forall s, has0xPrefix ("0x" ++ s) = true) ->
  has0xPrefix h = false ->
  let bare := {| pk_hex_bytes := h; pk_curve_type := curve |} in
  let prefixed := {| pk_hex_bytes := "0x" ++ h; pk_curve_type := curve |} in
  (forall net, derived_address prefixed net = derived_address bare net)
  /\ (forall net,
         derive v {| derive_public_key := prefixed;
                     derive_network_identifier := net |}
         = derive v {| derive_public_key := bare;
                       derive_network_identifier := net |})
  /\ (forall net o rest,
         metadata v {| meta_network_identifier := net; meta_options := o;
                       meta_public_keys := Some (prefixed :: rest) |}
         = metadata v {| meta_network_identifier := net; meta_options := o;
                         meta_public_keys := Some (bare :: rest) |}).
Proof.
  intros Hpre Hh bare prefixed.
  assert (S : strip_key_prefix ("0x" ++ h) = strip_key_prefix h).
  { unfold strip_key_prefix. rewrite Hpre, Hh.
    now rewrite replace_prepended. }
  assert (D : forall net, derived_address prefixed net
                          = derived_address bare net).
  { intros net. unfold derived_address, prefixed, bare.
    cbn [pk_hex_bytes]. now rewrite S. }
  split; [exact D|split].
  - intros net. unfold derive, prefixed, bare.
    cbn [derive_public_key pk_hex_bytes]. now rewrite S.
  - intros net o rest. unfold metadata, metadata_key_stage.
    cbn [meta_public_keys meta_options meta_network_identifier].
    now rewrite D.
Qed.

End DeriveProperties.

Section MetadataRun.

Context {H : Helpers}.

(** X4.  An accepted metadata call asks the account service about the
    recipient address, then asks for the current block, and replies 200
    with the options as they came, that account's nonce and the hash of the
    block when one was found.  When the account service fails the call
    ends without a reply. *)
Theorem metadata_accepted_run (v : ValidSchema) (request : MetadataRequest)
        (w : World) (r : string) :
  valid v = true ->
  let o := meta_options request in
  type_ok o -> sender_ok o -> symbol_ok o -> decimals_ok o ->
  token_transfer_recipient_address o = Some r ->
  isValidC32Address r = true ->
  key_ok request ->
  (forall info blk,
      w_getAccount w r = Returned info ->
      w_getCurrentBlock w = Returned blk ->
      run w (metadata v request)
      = ([AskedAccount r; AskedCurrentBlock;
          Replied 200
            (MetadataResponse o (nonce info)
               match blk with
               | Found b => Some (block_hash b)
               | NotFound => None
               end)],
         Finished))
  /\ (w_getAccount w r = Thrown ->
      run w (metadata v request) = ([AskedAccount r], Crashed)).
Proof.
  intros Hv o Ht Hs Hy Hd Hr Hvr Hk.
  assert (Rok : recipient_ok o) by (exists r; auto).
  assert (E : metadata v request = metadata_lookup o r).
  { destruct (metadata_cases v request Hv) as [C|[C|[C|[C|[C|[C|C]]]]]];
      fold o in C; try tauto.
    destruct C as (_ & _ & _ & _ & _ & _ & r' & Er & E).
    rewrite E. congruence. }
  rewrite E. unfold metadata_lookup. split.
  - intros info blk Ha Hb. unfold run; cbn [run_from]. rewrite Ha. unfold run; cbn [run_from]. rewrite Hb.
    reflexivity.
  - intros Ha. unfold run; cbn [run_from]. now rewrite Ha.
Qed.

End MetadataRun.

Section SubmitParseProperties.

Context {H : Helpers}.

(** X5.  A submit call replies exactly once in every world and never
    ends by an exception; it broadcasts only the bytes the transaction
    string decodes to; its reply is 200 with the identifier the broadcast
    returned, and [invalidTransactionString] when the string does not
    decode or the broadcast fails. *)
Theorem submit_outcomes (v : ValidSchema) (req : SubmitRequest) (w : World) :
  valid v = true ->
  let tx := with0x (submit_signed_transaction req) in
  (hexToBuffer tx = Thrown ->
   run w (submit v req)
   = ([Replied 400 (ErrorBody invalidTransactionString)], Finished))
  /\ (forall buffer,
         hexToBuffer tx = Returned buffer ->
         w_sendTransaction w buffer = Thrown ->
         run w (submit v req)
         = ([Broadcast buffer;
             Replied 400 (ErrorBody invalidTransactionString)], Finished))
  /\ (forall buffer txId,
         hexToBuffer tx = Returned buffer ->
         w_sendTransaction w buffer = Returned txId ->
         run w (submit v req)
         = ([Broadcast buffer; Replied 200 (SubmitResponse txId)], Finished))
  /\ List.length (replies (fst (run w (submit v req)))) = 1%nat
  /\ snd (run w (submit v req)) = Finished.
Proof.
  intros Hv tx. unfold submit. rewrite Hv. cbn [negb]. fold tx.
  repeat split.
  - intros E. now rewrite E.
  - intros buffer E S. rewrite E. unfold run; cbn [run_from]. now rewrite S.
  - intros buffer txId E S. rewrite E. unfold run; cbn [run_from]. now rewrite S.
  - destruct (hexToBuffer tx) as [buffer|]; [|reflexivity].
    unfold run; cbn [run_from]. destruct (w_sendTransaction w buffer); reflexivity.
  - destruct (hexToBuffer tx) as [buffer|]; [|reflexivity].
    unfold run; cbn [run_from]. destruct (w_sendTransaction w buffer); reflexivity.
Qed.

(** X6.  A parse call on a transaction that decodes: a [signed] flag that
    differs from the signed state of the transaction is answered with
    [invalidParams]; otherwise the operations are replied, with the
    signers exactly when [signed] holds; and when reading the operations
    or the signers throws, the handler ends without any reply. *)
Theorem parse_outcomes (v : ValidSchema) (req : ParseRequest)
        (transaction : StacksTransaction) :
  valid v = true ->
  let inputTx := with0x (parse_transaction req) in
  rawTxToStacksTransaction inputTx = Returned transaction ->
  (parse_signed req <> isSignedTransaction transaction ->
   parse v req = reject invalidParams)
  /\ (parse_signed req = isSignedTransaction transaction ->
      (rawTxToBaseTx inputTx = Thrown -> parse v req = Return_)
      /\ (forall baseTx,
             rawTxToBaseTx inputTx = Returned baseTx ->
             (getOperations baseTx = Thrown -> parse v req = Return_)
             /\ (forall operations,
                    getOperations baseTx = Returned operations ->
                    (parse_signed req = false ->
                     parse v req
                     = Json 200 (ParseResponse operations None) Return_)
                    /\ (parse_signed req = true ->
                        parse v req
                        = match getSigners transaction with
                          | Returned signers =>
                              Json 200
                                   (ParseResponse operations (Some signers))
                                   Return_
                          | Thrown => Return_
                          end)))).
Proof.
  intros Hv inputTx Ht. unfold parse. rewrite Hv. cbn [negb].
  fold inputTx. rewrite Ht. split.
  - intros N. destruct (parse_signed req), (isSignedTransaction transaction);
      try reflexivity; now elim N.
  - intros E. rewrite <- E, Bool.eqb_reflx. cbn [negb]. split.
    + intros B. now rewrite B.
    + intros baseTx B. rewrite B. split.
      * intros O. now rewrite O.
      * intros operations O. rewrite O. split; intros S; now rewrite S.
Qed.

(** X7.  A transaction string that decodes to bytes which do not
    deserialize: /hash is left by the exception, without a reply, whereas
    /combine, which deserializes inside its [try], answers
    [invalidTransactionString]; a string that does not decode is answered
    with [invalidTransactionString] by both. *)
Theorem undeserializable_transaction (v : ValidSchema) (s : string)
        (signature0 : RosettaSignature) (more : list RosettaSignature) :
  valid v = true ->
  let h := {| signed_transaction := s |} in
  let c := {| unsigned_transaction := s;
              signatures := signature0 :: more |} in
  (forall buffer,
      hexToBuffer (with0x s) = Returned buffer ->
      deserializeTransaction buffer = Thrown ->
      hash v h = Throw_ /\ combine v c = reject invalidTransactionString)
  /\ (hexToBuffer (with0x s) = Thrown ->
      hash v h = reject invalidTransactionString
      /\ combine v c = reject invalidTransactionString).
Proof.
  intros Hv h c. unfold hash, combine, h, c.
  cbn [signed_transaction unsigned_transaction signatures].
  rewrite Hv. cbn [negb List.length Nat.eqb]. split.
  - intros buffer B D. now rewrite B, D.
  - intros B. now rewrite B.
Qed.

End SubmitParseProperties.

Section CombineMore.

Context {H : Helpers}.

(** The handler for one signature on the curve that constructs and
    verifies. *)
Lemma combine_verified (v : ValidSchema) (request : CombineRequest)
      (signature0 : RosettaSignature) (buffer : Buffer)
      (transaction : StacksTransaction) (presign : string)
      (newSignature : MessageSignature) :
  valid v = true ->
  signatures request = [signature0] ->
  hexToBuffer (with0x (unsigned_transaction request)) = Returned buffer ->
  deserializeTransaction buffer = Returned transaction ->
  pk_curve_type (sig_public_key signature0) = "secp256k1" ->
  makePresignHash transaction = Some presign -> presign <> "" ->
  createMessageSignature (rotate_recovery_byte (sig_hex_bytes signature0))
  = Returned newSignature ->
  verifySignature
    (if has0xPrefix (pk_hex_bytes (sig_public_key signature0))
     then replace "0x" "" (signing_payload_hex_bytes signature0)
     else signing_payload_hex_bytes signature0)
    (pk_hex_bytes (sig_public_key signature0)) newSignature = true ->
  combine v request
  = Json 200
      (CombineResponse
         ("0x" ++ toString_hex
                    (serialize
                       match spendingCondition (auth transaction) with
                       | Some c =>
                           if isSingleSig c
                           then set_signature newSignature transaction
                           else transaction
                       | None => transaction
                       end)))
      Return_.
Proof.
  intros Hv Hs Hb Hd Hc Hp Hne Hm Hver.
  rewrite (combine_single v request signature0 buffer transaction)
    by assumption.
  rewrite (combine_signature_presigned signature0 transaction presign)
    by assumption.
  rewrite Hm. unfold combine_verify. now rewrite Hver.
Qed.

(** X8.  Combining a verified signature with a single-signature
    transaction gives one reply, 200, with the serialization of a
    transaction that differs from the unsigned one in the signature of
    its spending condition only: signer, nonce, fee, version,
    authorization type and payload are those of the unsigned
    transaction. *)
Theorem combine_splices_signature_only (v : ValidSchema)
        (request : CombineRequest) (signature0 : RosettaSignature)
        (buffer : Buffer) (transaction : StacksTransaction)
        (presign : string) (newSignature old : MessageSignature)
        (who : string) (n f : Z) :
  valid v = true ->
  signatures request = [signature0] ->
  hexToBuffer (with0x (unsigned_transaction request)) = Returned buffer ->
  deserializeTransaction buffer = Returned transaction ->
  pk_curve_type (sig_public_key signature0) = "secp256k1" ->
  makePresignHash transaction = Some presign -> presign <> "" ->
  createMessageSignature (rotate_recovery_byte (sig_hex_bytes signature0))
  = Returned newSignature ->
  verifySignature
    (if has0xPrefix (pk_hex_bytes (sig_public_key signature0))
     then replace "0x" "" (signing_payload_hex_bytes signature0)
     else signing_payload_hex_bytes signature0)
    (pk_hex_bytes (sig_public_key signature0)) newSignature = true ->
  spendingCondition (auth transaction) = Some (SingleSig who n f old) ->
  exists signed,
    combine v request
    = Json 200 (CombineResponse ("0x" ++ toString_hex (serialize signed)))
           Return_
    /\ spendingCondition (auth signed)
       = Some (SingleSig who n f newSignature)
    /\ authType (auth signed) = authType (auth transaction)
    /\ version signed = version transaction
    /\ payload signed = payload transaction.
Proof.
  intros Hv Hs Hb Hd Hc Hp Hne Hm Hver Hsc.
  exists (set_signature newSignature transaction). split.
  - rewrite (combine_verified v request signature0 buffer transaction
                              presign newSignature) by assumption.
    now rewrite Hsc.
  - unfold set_signature. rewrite Hsc. repeat split.
Qed.

(** X9.  Combining a verified signature with a transaction whose spending
    condition is multi-signature, or absent, replies 200 with the
    serialization of the transaction as it came: the signature is not
    written anywhere. *)
Theorem combine_leaves_multisig_unsigned (v : ValidSchema)
        (request : CombineRequest) (signature0 : RosettaSignature)
        (buffer : Buffer) (transaction : StacksTransaction)
        (presign : string) (newSignature : MessageSignature) :
  valid v = true ->
  signatures request = [signature0] ->
  hexToBuffer (with0x (unsigned_transaction request)) = Returned buffer ->
  deserializeTransaction buffer = Returned transaction ->
  pk_curve_type (sig_public_key signature0) = "secp256k1" ->
  makePresignHash transaction = Some presign -> presign <> "" ->
  createMessageSignature (rotate_recovery_byte (sig_hex_bytes signature0))
  = Returned newSignature ->
  verifySignature
    (if has0xPrefix (pk_hex_bytes (sig_public_key signature0))
     then replace "0x" "" (signing_payload_hex_bytes signature0)
     else signing_payload_hex_bytes signature0)
    (pk_hex_bytes (sig_public_key signature0)) newSignature = true ->
  (forall who n f old,
      spendingCondition (auth transaction)
      <> Some (SingleSig who n f old)) ->
  combine v request
  = Json 200 (CombineResponse ("0x" ++ toString_hex (serialize transaction)))
         Return_.
Proof.
  intros Hv Hs Hb Hd Hc Hp Hne Hm Hver Hsc.
  rewrite (combine_verified v request signature0 buffer transaction
                            presign newSignature) by assumption.
  destruct (spendingCondition (auth transaction))
    as [[who n f old|who n f fs r]|]; try reflexivity.
  now elim (Hsc who n f old).
Qed.

(** After a reply, whatever is left of a combine call ends by the
    exception of its next [res.json]: each way through the tests of the
    first signature ends in one. *)
Lemma run_combine_verify_sent (w : World) (s : RosettaSignature)
      (tx : StacksTransaction) (n : MessageSignature) :
  run_from true w (combine_verify s tx n) = ([], Crashed).
Proof.
  unfold combine_verify. now destruct (verifySignature _ _ n).
Qed.

Lemma run_combine_signature_sent (w : World) (s : RosettaSignature)
      (tx : StacksTransaction) :
  run_from true w (combine_signature s tx) = ([], Crashed).
Proof.
  unfold combine_signature.
  destruct (String.eqb _ "secp256k1"); cbn [negb]; [|reflexivity].
  destruct (makePresignHash tx) as [[|c p]|]; try reflexivity.
  destruct (createMessageSignature _) as [n|]; [|reflexivity].
  apply run_combine_verify_sent.
Qed.

(** The tests of the first signature, run before any reply: one reply
    and no external call. *)
Lemma run_combine_signature (w : World) (s : RosettaSignature)
      (tx : StacksTransaction) :
  existsb is_network_event (fst (run w (combine_signature s tx))) = false
  /\ List.length (replies (fst (run w (combine_signature s tx)))) = 1%nat.
Proof.
  unfold combine_signature.
  destruct (String.eqb _ "secp256k1"); cbn [negb]; [|now cbn].
  destruct (makePresignHash tx) as [[|c p]|]; try (now cbn).
  destruct (createMessageSignature _) as [n|]; [|now cbn].
  unfold combine_verify. now destruct (verifySignature _ _ n); cbn.
Qed.

(** X10.  A combine call makes no external call and sends exactly one
    reply.  A request without signatures is answered with [noSignatures]
    whatever its transaction string.  A request with more than one
    signature whose transaction deserializes is answered with
    [needOnlyOneSignature], and one whose only signature is not verified
    with [signatureNotVerified]; in both cases the handler goes on after
    the reply and ends by the exception of its next [res.json]. *)
Theorem combine_replies_without_network (v : ValidSchema)
        (request : CombineRequest) (w : World) :
  let t := fst (run w (combine v request)) in
  existsb is_network_event t = false
  /\ List.length (replies t) = 1%nat
  /\ (valid v = true -> signatures request = [] ->
      combine v request = reject noSignatures)
  /\ (valid v = true ->
      forall signature0 signature1 more buffer transaction,
        signatures request = signature0 :: signature1 :: more ->
        hexToBuffer (with0x (unsigned_transaction request))
        = Returned buffer ->
        deserializeTransaction buffer = Returned transaction ->
        run w (combine v request)
        = ([Replied 400 (ErrorBody needOnlyOneSignature)], Crashed))
  /\ (valid v = true ->
      forall signature0 buffer transaction presign newSignature,
        signatures request = [signature0] ->
        hexToBuffer (with0x (unsigned_transaction request))
        = Returned buffer ->
        deserializeTransaction buffer = Returned transaction ->
        pk_curve_type (sig_public_key signature0) = "secp256k1" ->
        makePresignHash transaction = Some presign -> presign <> "" ->
        createMessageSignature
          (rotate_recovery_byte (sig_hex_bytes signature0))
        = Returned newSignature ->
        verifySignature
          (if has0xPrefix (pk_hex_bytes (sig_public_key signature0))
           then replace "0x" "" (signing_payload_hex_bytes signature0)
           else signing_payload_hex_bytes signature0)
          (pk_hex_bytes (sig_public_key signature0)) newSignature = false ->
        run w (combine v request)
        = ([Replied 400 (ErrorBody signatureNotVerified)], Crashed)).
Proof.
  cbn zeta. split; [|split; [|split; [|split]]].
  1,2: unfold combine; destruct (valid v); cbn [negb]; [|now cbn];
    destruct (signatures request) as [|s0 [|s1 more]];
    cbn [List.length Nat.eqb negb]; [now cbn| |];
    (destruct (hexToBuffer _) as [buffer|]; [|now cbn]);
    (destruct (deserializeTransaction buffer) as [tx|]; [|now cbn]);
    try apply (run_combine_signature w s0 tx);
    unfold run; cbn [run_from]; rewrite run_combine_signature_sent;
    reflexivity.
  - intros Hv Hs. unfold combine. now rewrite Hv, Hs.
  - intros Hv signature0 signature1 more buffer transaction Hs Hb Hd.
    unfold combine. rewrite Hv, Hs, Hb, Hd.
    cbn [negb List.length Nat.eqb]. unfold run; cbn [run_from].
    now rewrite run_combine_signature_sent.
  - intros Hv signature0 buffer transaction presign newSignature
           Hs Hb Hd Hc Hp Hne Hm Hver.
    rewrite (combine_single v request signature0 buffer transaction)
      by assumption.
    rewrite (combine_signature_presigned signature0 transaction presign)
      by assumption.
    rewrite Hm. unfold combine_verify. rewrite Hver. reflexivity.
Qed.

End CombineMore.

Section PayloadsMore.

Context {H : Helpers}.

(** X11.  The account service is asked only by a payloads call that has
    passed the six checks on the derived options and the key list, and is
    asked about the sender address; a call that fails one of them is
    answered with that check's error and makes no external call. *)
Theorem payloads_checks_before_lookup (v : ValidSchema)
        (req : PayloadsRequest) :
  valid v = true ->
  (exists e,
      In e [invalidOperation; invalidAmount; invalidFees; emptyPublicKey;
            invalidRecipient; invalidSender]
      /\ payloads v req = reject e)
  \/ (exists options pks amount' fees recipientAddress senderAddress k,
         getOptionsFromOperations (pay_operations req) = Some options
         /\ amount options = Some amount' /\ amount' <> ""
         /\ fee options = Some fees /\ fees <> ""
         /\ pay_public_keys req = Some pks
         /\ token_transfer_recipient_address options = Some recipientAddress
         /\ recipientAddress <> ""
         /\ sender_address options = Some senderAddress
         /\ senderAddress <> ""
         /\ payloads v req = GetAccount senderAddress k).
Proof.
  intros Hv. unfold payloads. rewrite Hv. cbn [negb].
  destruct (getOptionsFromOperations _) as [options|];
    [|left; exists invalidOperation; simpl; auto].
  destruct (amount options) as [[|ca a]|] eqn:Ea;
    try (left; exists invalidAmount; simpl; now auto).
  destruct (fee options) as [[|cf f]|] eqn:Ef;
    try (left; exists invalidFees; simpl; now auto).
  destruct (pay_public_keys req) as [pks|] eqn:Ek;
    [|left; exists emptyPublicKey; simpl; now auto 6].
  destruct (token_transfer_recipient_address options) as [[|cr r]|] eqn:Er;
    try (left; exists invalidRecipient; simpl; now auto 8).
  destruct (sender_address options) as [[|cs s]|] eqn:Es;
    try (left; exists invalidSender; simpl; now auto 8).
  right. exists options, pks, (String ca a), (String cf f), (String cr r),
    (String cs s).
  eexists. repeat split; try reflexivity; try assumption; discriminate.
Qed.

(** X12.  A payloads call with one secp256k1 key, in a world that
    answers: the unsigned transfer is built from the recipient, amount and
    fee of the derived options, the key of the request and the nonce of the
    sender's account; the one signing payload of the reply carries the
    sender address and the presign hash made with that same fee and
    nonce. *)
Theorem payloads_builds_transfer (v : ValidSchema) (req : PayloadsRequest)
        (options : RosettaOptions) (pk : RosettaPublicKey)
        (amount' fees recipientAddress senderAddress : string)
        (w : World) (accountInfo : AccountInfo) (tx : StacksTransaction) :
  valid v = true ->
  getOptionsFromOperations (pay_operations req) = Some options ->
  amount options = Some amount' -> amount' <> "" ->
  fee options = Some fees -> fees <> "" ->
  pay_public_keys req = Some [pk] ->
  token_transfer_recipient_address options = Some recipientAddress ->
  recipientAddress <> "" ->
  sender_address options = Some senderAddress -> senderAddress <> "" ->
  pk_curve_type pk = "secp256k1" ->
  w_getAccount w senderAddress = Returned accountInfo ->
  Z.abs (nonce accountInfo) < 2 ^ 53 ->
  let opts := {| tt_recipient := recipientAddress;
                 tt_amount := BN amount';
                 tt_fee := BN fees;
                 tt_publicKey := pk_hex_bytes pk;
                 tt_nonce := nonce accountInfo |} in
  w_makeUnsignedSTXTokenTransfer w opts = Returned tx ->
  run w (payloads v req)
  = ([AskedAccount senderAddress; BuiltTransfer opts;
      Replied 200
        (PayloadResponse
           ("0x" ++ toString_hex (serialize tx))
           [{| sp_address := senderAddress;
               sp_hex_bytes :=
                 makeSigHashPreSign (sigHash tx) Standard (BN fees)
                                    (nonce accountInfo);
               sp_signature_type := "ecdsa_recovery" |}])],
     Finished).
Proof.
  intros Hv Ho Ha Hane Hf Hfne Hk Hr Hrne Hs Hsne Hc Hw Hn opts Hb.
  unfold payloads. rewrite Hv, Ho, Ha, Hf, Hk, Hr, Hs. cbn [negb].
  destruct amount' as [|ca amount']; [congruence|].
  destruct fees as [|cf fees]; [congruence|].
  destruct recipientAddress as [|cr recipientAddress]; [congruence|].
  destruct senderAddress as [|cs senderAddress]; [congruence|].
  unfold run; cbn [run_from]. rewrite Hw. cbn [List.length Nat.eqb negb].
  rewrite Hc, String.eqb_refl. cbn [negb].
  assert (N : (if negb (nonce accountInfo =? 0)
               then nonce accountInfo else 0) = nonce accountInfo).
  { destruct (nonce accountInfo =? 0) eqn:E; cbn [negb]; [|reflexivity].
    apply Z.eqb_eq in E. now rewrite E. }
  rewrite (nonce_BN_small _ Hn), N. cbn [run_from]. fold opts.
  rewrite Hb. reflexivity.
Qed.

End PayloadsMore.

Section PreprocessMore.

Context {H : Helpers}.

Lemma apply_metadata_keeps (req : PreprocessRequest)
      (derived : RosettaOptions) :
  let o := apply_metadata req derived in
  sender_address o = sender_address derived
  /\ token_transfer_recipient_address o
     = token_transfer_recipient_address derived
  /\ amount o = amount derived /\ fee o = fee derived
  /\ symbol o = symbol derived /\ decimals o = decimals derived
  /\ type_ o = type_ derived /\ status o = status derived
  /\ max_fee o = max_fee derived.
Proof.
  unfold apply_metadata. destruct (pre_metadata req) as [md|];
    [|cbn; repeat split].
  destruct (truthy_number (md_gas_limit md)),
    (truthy_number (md_gas_price md)),
    (truthy_number (pre_suggested_fee_multiplier req)); cbn; repeat split.
Qed.

(** X13.  Whatever metadata, fee multiplier and maximum fee a preprocess
    request carries, the options of its 200 reply have the sender,
    recipient, amount, fee, currency, type and status that
    [getOptionsFromOperations] derived from the operations, and the
    required public key is that sender. *)
Theorem preprocess_keeps_transfer_fields (v : ValidSchema)
        (req : PreprocessRequest) (options : RosettaOptions)
        (keys : list (option string)) :
  preprocess v req = Json 200 (PreprocessResponse options keys) Return_ ->
  exists derived,
    getOptionsFromOperations (pre_operations req) = Some derived
    /\ sender_address options = sender_address derived
    /\ token_transfer_recipient_address options
       = token_transfer_recipient_address derived
    /\ amount options = amount derived /\ fee options = fee derived
    /\ symbol options = symbol derived /\ decimals options = decimals derived
    /\ type_ options = type_ derived /\ status options = status derived
    /\ keys = [sender_address derived].
Proof.
  intros E.
  assert (K : keys = [sender_address options]
              /\ preprocess v req = preprocess_response options).
  { revert E. unfold preprocess, preprocess_response, reject, reject_schema.
    destruct (valid v); cbn [negb]; [|discriminate].
    destruct (Nat.eqb _ 3); cbn [negb]; [|discriminate].
    destruct (isSymbolSupported _); cbn [negb]; [|discriminate].
    destruct (isDecimalsSupported _); cbn [negb]; [|discriminate].
    destruct (getOptionsFromOperations _) as [derived|]; [|discriminate].
    cbn zeta. destruct (pre_max_fee req) as [[|m rest]|]; try discriminate.
    - destruct (_ && _); [|discriminate].
      intros E. injection E as <- <-. auto.
    - intros E. injection E as <- <-. auto. }
  destruct K as [-> Hr].
  destruct (preprocess_accepted v req options Hr) as (derived & Ho & Hd).
  exists derived. split; [exact Ho|].
  pose proof (apply_metadata_keeps req derived) as (A1 & A2 & A3 & A4 & A5
                                                    & A6 & A7 & A8 & _).
  destruct Hd as [->|[x ->]]; cbn; rewrite ?A1; repeat split; assumption.
Qed.

(** X14.  The maximum fee of accepted options is the value of the first
    entry of the request's [max_fee], whose currency is the native one;
    further entries are not looked at.  Without [max_fee] in the request
    it is what the derivation gave.  With an empty [max_fee] list a call
    that has passed the other checks ends by an exception, without a
    reply. *)
Theorem preprocess_max_fee (v : ValidSchema) (req : PreprocessRequest) :
  (forall options,
      preprocess v req = preprocess_response options ->
      match pre_max_fee req with
      | None =>
          exists derived,
            getOptionsFromOperations (pre_operations req) = Some derived
            /\ max_fee options = max_fee derived
      | Some [] => False
      | Some (m :: _) =>
          max_fee options = Some (amt_value m)
          /\ cur_symbol (amt_currency m) = RosettaConstants_symbol
          /\ cur_decimals (amt_currency m) = RosettaConstants_decimals
      end)
  /\ (valid v = true ->
      List.length (pre_operations req) = 3%nat ->
      isSymbolSupported (pre_operations req) = true ->
      isDecimalsSupported (pre_operations req) = true ->
      getOptionsFromOperations (pre_operations req) <> None ->
      pre_max_fee req = Some [] ->
      preprocess v req = Throw_).
Proof.
  split.
  - intros options. unfold preprocess, preprocess_response, reject,
      reject_schema.
    destruct (valid v); cbn [negb]; [|discriminate].
    destruct (Nat.eqb _ 3); cbn [negb]; [|discriminate].
    destruct (isSymbolSupported _); cbn [negb]; [|discriminate].
    destruct (isDecimalsSupported _); cbn [negb]; [|discriminate].
    destruct (getOptionsFromOperations _) as [derived|]; [|discriminate].
    cbn zeta. destruct (pre_max_fee req) as [[|m rest]|]; try discriminate.
    + destruct (String.eqb _ _) eqn:Es; [|discriminate].
      destruct (_ =? _) eqn:Ed; [|discriminate]. cbn [andb].
      intros E. injection E as <-. repeat split.
      * now apply String.eqb_eq.
      * now apply Z.eqb_eq.
    + intros E. injection E as <-. exists derived. split; [reflexivity|].
      apply apply_metadata_keeps.
  - intros Hv Hl Hs Hd Ho Hm. rewrite preprocess_checked by assumption.
    destruct (getOptionsFromOperations _); [|congruence].
    now rewrite Hm.
Qed.

End PreprocessMore.

Section RotationMore.

(** X15.  Rotating the recovery byte keeps the length of the signature
    string and is idempotent: a rotated string starts with ["01"] and is
    left alone by a second pass. *)
Theorem rotate_recovery_byte_idempotent (hex : string) :
  String.length (rotate_recovery_byte hex) = String.length hex
  /\ rotate_recovery_byte (rotate_recovery_byte hex)
     = rotate_recovery_byte hex.
Proof.
  assert (R : rotate_recovery_byte hex = hex
              \/ (rotate_recovery_byte hex = "01" ++ take 128 hex
                  /\ hex = take 128 hex ++ "01")).
  { unfold rotate_recovery_byte.
    destruct (negb (startsWith "01" hex)
              && String.eqb (slice_from 128 hex) "01") eqn:C;
      [|now left].
    apply andb_true_iff in C. destruct C as [_ C].
    apply String.eqb_eq in C.
    destruct (trailing_byte_split hex C) as [E1 E2].
    right. now rewrite C, E1. }
  destruct R as [R|[R E]].
  - now rewrite !R.
  - rewrite R. split.
    + rewrite E at 2. rewrite !append_length. simpl. lia.
    + unfold rotate_recovery_byte, startsWith.
      now rewrite (prefix_append "01" (take 128 hex)).
Qed.

End RotationMore.

Module MicroblocksProperties.

Import Microblocks.

Section Router.

Context {H : Helpers}.
Variables M T : Type.

(** X16.  GET /:hash with a hash that lacks the ["0x"] prefix is answered
    with a redirect to the same route with the prefix put in front, and
    without a datastore query; the handler then does not redirect again
    but looks that prefixed hash up, replying 404 with the hash in the
    message when the microblock is not found and the microblock
    otherwise. *)
Theorem get_microblock_redirects_once (hash : string) :
  (forall s, has0xPrefix ("0x" ++ s) = true) ->
  has0xPrefix hash = false ->
  get_microblock M T hash
  = Redirect ("/extended/v1/microblock/" ++ "0x" ++ hash) Return_
  /\ exists k,
       get_microblock M T ("0x" ++ hash) = GetMicroblock ("0x" ++ hash) k
       /\ k NotFound
          = Json 404
              (NotFoundBody ("cannot find microblock by hash " ++ "0x" ++ hash))
              Return_
       /\ forall m, k (Found m) = Json 200 (MicroblockBody m) Return_.
Proof.
  intros Hpre Hh. unfold get_microblock. rewrite Hh, Hpre. cbn [negb].
  split; [reflexivity|]. eexists. split; [reflexivity|].
  split; [reflexivity|]. intros m. reflexivity.
Qed.

End Router.

End MicroblocksProperties.

(** ** Properties of the token-contract handler *)

Module TokenHandlerProperties.

Import Tokens TokenHandler.

Lemma checkAndParseUintCV_inv (cv : ClarityValue) (n : Z) :
  checkAndParseUintCV cv = Some n -> cv = ResponseOkCV (UIntCV n).
Proof.
  destruct cv as [| | | | | | |[]| | | | | | |]; simpl; intros E;
    try discriminate. now injection E as ->.
Qed.

(** X17.  Each of the three parsers of a read-only answer accepts one
    shape of [ok] response only, so no answer is accepted by two of them
    and an [err] response by none. *)
Theorem response_parsers_exclusive (cv : ClarityValue) :
  (forall n, checkAndParseUintCV cv = Some n
             <-> cv = ResponseOkCV (UIntCV n))
  /\ (forall s, checkAndParseString cv = Some s
                <-> cv = ResponseOkCV (StringAsciiCV s))
  /\ (forall s, checkAndParseOptionalString cv = Some s
                <-> cv = ResponseOkCV (SomeCV (StringAsciiCV s)))
  /\ (checkAndParseUintCV cv <> None ->
      checkAndParseString cv = None
      /\ checkAndParseOptionalString cv = None)
  /\ (checkAndParseString cv <> None ->
      checkAndParseOptionalString cv = None)
  /\ (forall e, cv = ResponseErrorCV e ->
      checkAndParseUintCV cv = None /\ checkAndParseString cv = None
      /\ checkAndParseOptionalString cv = None).
Proof.
  repeat split.
  - destruct cv as [| | | | | | |[]| | | | | | |]; simpl; intros E;
      try discriminate. now injection E as ->.
  - intros ->. reflexivity.
  - destruct cv as [| | | | | | |[]| | | | | | |]; simpl; intros E;
      try discriminate. now injection E as ->.
  - intros ->. reflexivity.
  - destruct cv as [| | | | | | |[| | | | | | | | | |[]| | | |]| | | | | | |];
      simpl; intros E; try discriminate. now injection E as ->.
  - intros ->. reflexivity.
  - destruct cv as [| | | | | | |[]| | | | | | |]; simpl in *;
      try reflexivity; congruence.
  - destruct cv as [| | | | | | |[]| | | | | | |]; simpl in *;
      try reflexivity; congruence.
  - destruct cv as [| | | | | | |[]| | | | | | |]; simpl in *;
      try reflexivity; congruence.
  - subst cv. reflexivity.
  - subst cv. reflexivity.
  - subst cv. reflexivity.
Qed.

Section Handler.

Variable loose_neq : ClarityAbiArg -> option ClarityAbiArg -> bool.
Variable URI_host : string -> option string.
Variable URI_path : string -> option string.
Variable JSON_parse : string -> Result TokenMetadata.
Variable this : TokensContractHandler.
Variable w : World.

Lemma run_call (fn : string) (args : list ClarityValue)
      (k : ClarityValue -> Proc) :
  run w (makeReadOnlyContractCall this fn args k)
  = match w_callReadOnlyFunction w (txOptions this fn args) with
    | Returned cv => (Called (txOptions this fn args) :: fst (run w (k cv)),
                      snd (run w (k cv)))
    | Thrown => ([Called (txOptions this fn args)], Crashed)
    end.
Proof.
  unfold makeReadOnlyContractCall. cbn [run].
  destruct (w_callReadOnlyFunction w _) as [cv|]; [|reflexivity].
  now destruct (run w (k cv)).
Qed.

Lemma run_getMetadataFromUri (uri : string) (k : TokenMetadata -> Proc) :
  run w (getMetadataFromUri URI_host URI_path JSON_parse uri k)
  = match fetched URI_host URI_path JSON_parse w uri with
    | Some md =>
        (Fetched (makeHostedUrl URI_host URI_path uri) :: fst (run w (k md)),
         snd (run w (k md)))
    | None => ([Fetched (makeHostedUrl URI_host URI_path uri)], Crashed)
    end.
Proof.
  unfold getMetadataFromUri, makeApiCall, fetched. cbn [run].
  destruct (w_fetch w _) as [resp|]; [|reflexivity].
  destruct (ok resp); cbn [negb]; [|reflexivity].
  destruct (text resp) as [s|]; [|reflexivity].
  destruct (JSON_parse s) as [md|]; [|reflexivity].
  now destruct (run w (k md)).
Qed.

Lemma run_storeFT (m : DbFungibleTokenMetadata) (k : Proc) :
  run w (storeFTMetadata m k) = (StoredFt m :: fst (run w k), snd (run w k)).
Proof. unfold storeFTMetadata. cbn [run]. now destruct (run w k). Qed.

Lemma run_storeNFT (m : DbNonFungibleTokenMetadata) (k : Proc) :
  run w (storeNFTMetadata m k)
  = (StoredNft m :: fst (run w k), snd (run w k)).
Proof. unfold storeNFTMetadata. cbn [run]. now destruct (run w k). Qed.

(** Fungible-token handling followed by [k]: [k] starts where the handling
    alone finishes, and does not start when it ends by an exception. *)
Lemma run_handleFT_then (k : Proc) :
  run w (handleFTContract URI_host URI_path JSON_parse this k)
  = match run w (handleFTContract URI_host URI_path JSON_parse this Return_)
    with
    | (t, Finished) => ((t ++ fst (run w k))%list, snd (run w k))
    | (t, Crashed) => (t, Crashed)
    end.
Proof.
  unfold handleFTContract.
  rewrite !(run_call "get-name").
  destruct (w_callReadOnlyFunction w _) as [cn|]; [|reflexivity].
  rewrite !(run_call "get-token-uri").
  destruct (w_callReadOnlyFunction w _) as [cu|]; [|reflexivity].
  rewrite !(run_call "get-symbol").
  destruct (w_callReadOnlyFunction w _) as [cs|]; [|reflexivity].
  rewrite !(run_call "get-decimals").
  destruct (w_callReadOnlyFunction w _) as [cd|]; [|reflexivity].
  cbn zeta. cbn [fst snd].
  destruct (checkAndParseOptionalString cu) as [uri|].
  - rewrite !run_getMetadataFromUri.
    destruct (fetched _ _ _ w uri) as [md|]; [|reflexivity].
    rewrite !run_storeFT. cbn [run fst snd app].
    now destruct (run w k).
  - cbn [run fst snd app]. now destruct (run w k).
Qed.

(** X18.  Whatever fungible-token handling stores was built from a token
    URI that [get-token-uri] answered as [(ok (some ...))] and from the
    document fetched for it: the name is the one [get-name] answered when
    it answered a string, else the document's; the symbol defaults to the
    empty string and the decimals to 0; the contract id is address and
    name joined by a dot.  The store comes last, after all four read-only
    calls and the fetch, and the handling finishes whether or not the
    update succeeds. *)
Theorem handleFTContract_stored (m : DbFungibleTokenMetadata) :
  In (StoredFt m)
     (fst (run w (handleFTContract URI_host URI_path JSON_parse this
                                   Return_))) ->
  exists cn cu cs cd uri md,
    w_callReadOnlyFunction w (txOptions this "get-name" []) = Returned cn
    /\ w_callReadOnlyFunction w (txOptions this "get-token-uri" [])
       = Returned cu
    /\ w_callReadOnlyFunction w (txOptions this "get-symbol" [])
       = Returned cs
    /\ w_callReadOnlyFunction w (txOptions this "get-decimals" [])
       = Returned cd
    /\ checkAndParseOptionalString cu = Some uri
    /\ fetched URI_host URI_path JSON_parse w uri = Some md
    /\ m = {| ft_name := match checkAndParseString cn with
                         | Some n => Some n
                         | None => tm_name md
                         end;
              ft_description := tm_description md;
              ft_image_uri := tm_imageUrl md;
              ft_image_canonical_uri := uri;
              ft_symbol := match checkAndParseString cs with
                           | Some s => s
                           | None => ""
                           end;
              ft_decimals := match checkAndParseUintCV cd with
                             | Some d => d
                             | None => 0
                             end;
              ft_contract_id :=
                contractAddress this ++ "." ++ contractName this |}
    /\ run w (handleFTContract URI_host URI_path JSON_parse this Return_)
       = ([Called (txOptions this "get-name" []);
           Called (txOptions this "get-token-uri" []);
           Called (txOptions this "get-symbol" []);
           Called (txOptions this "get-decimals" []);
           Fetched (makeHostedUrl URI_host URI_path uri);
           StoredFt m], Finished).
Proof.
  unfold handleFTContract.
  rewrite (run_call "get-name").
  destruct (w_callReadOnlyFunction w (txOptions this "get-name" []))
    as [cn|] eqn:En;
    [|cbn; intros [E|[]]; discriminate].
  rewrite (run_call "get-token-uri").
  destruct (w_callReadOnlyFunction w (txOptions this "get-token-uri" []))
    as [cu|] eqn:Eu;
    [|cbn; intros [E|[E|[]]]; discriminate].
  rewrite (run_call "get-symbol").
  destruct (w_callReadOnlyFunction w (txOptions this "get-symbol" []))
    as [cs|] eqn:Es;
    [|cbn; intros [E|[E|[E|[]]]]; discriminate].
  rewrite (run_call "get-decimals").
  destruct (w_callReadOnlyFunction w (txOptions this "get-decimals" []))
    as [cd|] eqn:Ed;
    [|cbn; intros [E|[E|[E|[E|[]]]]]; discriminate].
  cbn zeta. cbn [fst snd].
  destruct (checkAndParseOptionalString cu) as [uri|] eqn:Ep;
    [|cbn; intros [E|[E|[E|[E|[]]]]]; discriminate].
  rewrite run_getMetadataFromUri.
  destruct (fetched URI_host URI_path JSON_parse w uri) as [md|] eqn:Ef;
    [|cbn; intros [E|[E|[E|[E|[E|[]]]]]]; discriminate].
  rewrite run_storeFT. cbn [run fst snd In].
  intros [E|[E|[E|[E|[E|[E|[]]]]]]]; try discriminate.
  injection E as <-.
  exists cn, cu, cs, cd, uri, md.
  repeat split; try assumption; reflexivity.
Qed.

(** X19.  Fungible-token handling makes its four read-only calls, in the
    order get-name, get-token-uri, get-symbol, get-decimals and without
    arguments, before it looks at any answer; when the answer to
    get-token-uri is not [(ok (some ...))] of an ASCII string, nothing is
    fetched or stored and what follows the handling starts right after
    the four calls. *)
Theorem handleFTContract_without_uri (k : Proc)
        (cn cu cs cd : ClarityValue) :
  w_callReadOnlyFunction w (txOptions this "get-name" []) = Returned cn ->
  w_callReadOnlyFunction w (txOptions this "get-token-uri" [])
  = Returned cu ->
  w_callReadOnlyFunction w (txOptions this "get-symbol" []) = Returned cs ->
  w_callReadOnlyFunction w (txOptions this "get-decimals" [])
  = Returned cd ->
  (exists t,
      fst (run w (handleFTContract URI_host URI_path JSON_parse this k))
      = Called (txOptions this "get-name" [])
        :: Called (txOptions this "get-token-uri" [])
        :: Called (txOptions this "get-symbol" [])
        :: Called (txOptions this "get-decimals" []) :: t)
  /\ (checkAndParseOptionalString cu = None ->
      run w (handleFTContract URI_host URI_path JSON_parse this k)
      = (Called (txOptions this "get-name" [])
         :: Called (txOptions this "get-token-uri" [])
         :: Called (txOptions this "get-symbol" [])
         :: Called (txOptions this "get-decimals" []) :: fst (run w k),
         snd (run w k))).
Proof.
  intros En Eu Es Ed. unfold handleFTContract.
  rewrite (run_call "get-name"), En.
  rewrite (run_call "get-token-uri"), Eu.
  rewrite (run_call "get-symbol"), Es.
  rewrite (run_call "get-decimals"), Ed.
  cbn zeta. cbn [fst snd]. split.
  - eexists. reflexivity.
  - intros Ep. now rewrite Ep.
Qed.

(** X20.  Non-fungible-token handling asks for the token URI only when
    get-last-token-id answers [(ok uint)], and then with that id as its
    one argument; whatever it stores was built from a token URI answered as
    [(ok (some ...))] and from the document fetched for it, the name being
    the document's. *)
Theorem handleNFTContract_outcomes :
  (forall k ct,
      w_callReadOnlyFunction w (txOptions this "get-last-token-id" [])
      = Returned ct ->
      checkAndParseUintCV ct = None ->
      run w (handleNFTContract URI_host URI_path JSON_parse this k)
      = (Called (txOptions this "get-last-token-id" []) :: fst (run w k),
         snd (run w k)))
  /\ (forall m,
         In (StoredNft m)
            (fst (run w (handleNFTContract URI_host URI_path JSON_parse this
                                           Return_))) ->
         exists id cu uri md,
           w_callReadOnlyFunction w (txOptions this "get-last-token-id" [])
           = Returned (ResponseOkCV (UIntCV id))
           /\ w_callReadOnlyFunction
                w (txOptions this "get-token-uri" [UIntCV id])
              = Returned cu
           /\ checkAndParseOptionalString cu = Some uri
           /\ fetched URI_host URI_path JSON_parse w uri = Some md
           /\ m = {| nft_name := tm_name md;
                     nft_description := tm_description md;
                     nft_image_uri := tm_imageUrl md;
                     nft_image_canonical_uri := uri;
                     nft_contract_id :=
                       contractAddress this ++ "." ++ contractName this |}
           /\ run w (handleNFTContract URI_host URI_path JSON_parse this
                                       Return_)
              = ([Called (txOptions this "get-last-token-id" []);
                  Called (txOptions this "get-token-uri" [UIntCV id]);
                  Fetched (makeHostedUrl URI_host URI_path uri);
                  StoredNft m], Finished)).
Proof.
  split.
  - intros k ct Et Ep. unfold handleNFTContract.
    rewrite (run_call "get-last-token-id"), Et. cbn zeta. now rewrite Ep.
  - intros m. unfold handleNFTContract.
    rewrite (run_call "get-last-token-id").
    destruct (w_callReadOnlyFunction w (txOptions this "get-last-token-id" []))
      as [ct|] eqn:Et;
      [|cbn; intros [E|[]]; discriminate].
    cbn zeta.
    destruct (checkAndParseUintCV ct) as [id|] eqn:Ep;
      [|cbn; intros [E|[]]; discriminate].
    assert (Ect : ct = ResponseOkCV (UIntCV id)).
    { now apply checkAndParseUintCV_inv. }
    rewrite (run_call "get-token-uri").
    destruct (w_callReadOnlyFunction
                w (txOptions this "get-token-uri" [UIntCV id]))
      as [cu|] eqn:Eu;
      [|cbn; intros [E|[E|[]]]; discriminate].
    cbn zeta.
    destruct (checkAndParseOptionalString cu) as [uri|] eqn:Eo;
      [|cbn; intros [E|[E|[]]]; discriminate].
    rewrite run_getMetadataFromUri.
    destruct (fetched URI_host URI_path JSON_parse w uri) as [md|] eqn:Ef;
      [|cbn; intros [E|[E|[E|[]]]]; discriminate].
    rewrite run_storeNFT. cbn [run fst snd In].
    intros [E|[E|[E|[E|[]]]]]; try discriminate.
    injection E as <-.
    exists id, cu, uri, md. subst ct.
    repeat split; try assumption; reflexivity.
Qed.

(** X21.  On a contract that declares both kinds of token and passes both
    compliance tests, [start] handles the fungible token first and the
    non-fungible one after it has finished; when the fungible-token
    handling ends by an exception, no call is made for the non-fungible
    token. *)
Theorem start_handles_ft_then_nft :
  fungible_tokens (contractAbi this) <> [] ->
  non_fungible_tokens (contractAbi this) <> [] ->
  isCompliant loose_neq (contractAbi this) FT_FUNCTIONS = true ->
  isCompliant loose_neq (contractAbi this) NFT_FUNCTIONS = true ->
  run w (start loose_neq URI_host URI_path JSON_parse this)
  = match run w (handleFTContract URI_host URI_path JSON_parse this Return_)
    with
    | (t, Finished) =>
        ((t ++ fst (run w (handleNFTContract URI_host URI_path JSON_parse
                                             this Return_)))%list,
         snd (run w (handleNFTContract URI_host URI_path JSON_parse this
                                       Return_)))
    | (t, Crashed) => (t, Crashed)
    end.
Proof.
  intros Hf Hn Cf Cn. unfold start. rewrite Cf, Cn.
  destruct (fungible_tokens (contractAbi this)) as [|f fs]; [congruence|].
  destruct (non_fungible_tokens (contractAbi this)) as [|n ns];
    [congruence|].
  cbn [List.length Nat.ltb Nat.leb]. apply run_handleFT_then.
Qed.

(** X22.  [start] makes no call at all on a contract for which [hasTokens]
    is false, and none on a contract that passes neither compliance
    test. *)
Theorem start_does_nothing :
  (hasTokens (contractAbi this) = false ->
   start loose_neq URI_host URI_path JSON_parse this = Return_)
  /\ (isCompliant loose_neq (contractAbi this) FT_FUNCTIONS = false ->
      isCompliant loose_neq (contractAbi this) NFT_FUNCTIONS = false ->
      start loose_neq URI_host URI_path JSON_parse this = Return_).
Proof.
  unfold start, hasTokens. split.
  - intros E. apply orb_false_iff in E. destruct E as [-> ->]. reflexivity.
  - intros -> ->.
    destruct (Nat.ltb 0 _), (Nat.ltb 0 _); reflexivity.
Qed.

End Handler.

End TokenHandlerProperties.

Module TokensMore.

Import Tokens.

Section Compliance.

Variable loose_neq : ClarityAbiArg -> option ClarityAbiArg -> bool.

(** X23.  Compliance is kept when functions are added to a contract, and
    a standard made of two lists of functions is met exactly when both
    lists are. *)
Theorem isCompliant_monotone :
  (forall a b standard,
      incl (functions a) (functions b) ->
      isCompliant loose_neq a standard = true ->
      isCompliant loose_neq b standard = true)
  /\ (forall abi s1 s2,
         isCompliant loose_neq abi (s1 ++ s2)%list
         = isCompliant loose_neq abi s1 && isCompliant loose_neq abi s2).
Proof.
  split.
  - intros a b standard Hi. unfold isCompliant.
    rewrite !forallb_forall. intros A f Hf.
    destruct (proj1 (TokensProperties.findFunction_spec loose_neq f _)
                    (A f Hf)) as (g & Hg & Hn & Ha).
    apply TokensProperties.findFunction_spec. exists g. auto.
  - intros abi s1 s2. unfold isCompliant. apply forallb_app.
Qed.

End Compliance.

End TokensMore.

(** ** The further properties on concrete requests *)

Section RouterOnMoreSamples.

Import Sample MoreSamples.

Lemma derive_reply_count_witness :
  deliver (derive ok derive_own_key)
  = ([(200, DeriveResponse sender)], Finished)
  /\ deliver
       (derive (schema_error
                  "public_key.curve_type should be equal to one of the allowed values")
               derive_own_key)
     = ([(400, DeriveError invalidCurveType)], Crashed)
  /\ deliver (derive (schema_error "should be string") derive_own_key)
     = ([(400, DeriveSchemaError (schema_error "should be string"))],
        Finished).
Proof.
  split; [|split].
  - refine (eq_trans (proj1 (proj2 (derive_reply_count ok derive_own_key))
                             eq_refl) _).
    vm_compute. reflexivity.
  - apply (proj1 (proj2 (proj2 (derive_reply_count
                           (schema_error
                              "public_key.curve_type should be equal to one of the allowed values")
                           derive_own_key))) eq_refl _ eq_refl).
    reflexivity.
  - apply (proj2 (proj2 (proj2 (derive_reply_count
                                  (schema_error "should be string")
                                  derive_own_key))) eq_refl).
    intros e E. injection E as <-. reflexivity.
Defined.

Lemma metadata_accepts_what_derive_answers_witness :
  metadata ok metadata_own_key = metadata_lookup transfer_options recipient
  /\ metadata ok metadata_other_key = reject invalidPublicKey.
Proof.
  destruct transfer_options_pass as (T & S & Y & D & _).
  split.
  - apply (proj1 (metadata_accepts_what_derive_answers
                    ok metadata_own_key (secp key_hex) [] recipient
                    eq_refl eq_refl T S Y D eq_refl eq_refl)).
    exists sender. split; reflexivity.
  - apply (proj2 (metadata_accepts_what_derive_answers
                    ok metadata_other_key (secp other_key_hex) [] recipient
                    eq_refl eq_refl T S Y D eq_refl eq_refl)).
    intros (a & Ea & Es). vm_compute in Ea, Es. congruence.
Defined.

Lemma key_prefix_insensitive_witness :
  derived_address (secp ("0x" ++ key_hex)) "testnet"
  = derived_address (secp key_hex) "testnet".
Proof.
  assert (P : forall s, has0xPrefix ("0x" ++ s) = true)
    by (intros [|c s]; reflexivity).
  apply (proj1 (key_prefix_insensitive ok key_hex "secp256k1" P eq_refl)).
Defined.

Lemma metadata_accepted_run_witness :
  run world (metadata ok metadata_own_key)
  = ([AskedAccount recipient; AskedCurrentBlock;
      Replied 200 (MetadataResponse transfer_options 7 (Some "0xb10c"))],
     Finished)
  /\ run offline (metadata ok metadata_own_key)
     = ([AskedAccount recipient], Crashed).
Proof.
  destruct transfer_options_pass as (T & S & Y & D & _).
  assert (K : key_ok metadata_own_key).
  { intros pk rest E. injection E as <- <-. exists sender.
    split; reflexivity. }
  split.
  - apply (proj1 (metadata_accepted_run ok metadata_own_key world recipient
                    eq_refl T S Y D eq_refl eq_refl K)
                 {| nonce := 7 |} (Found {| block_hash := "0xb10c" |})
                 eq_refl eq_refl).
  - apply (proj2 (metadata_accepted_run ok metadata_own_key offline recipient
                    eq_refl T S Y D eq_refl eq_refl K)).
    reflexivity.
Defined.

Lemma submit_outcomes_witness :
  run world (submit ok {| submit_signed_transaction := signed_hex |})
  = ([Broadcast (match Impl.decode_hex signed_hex with
                 | Returned b => b
                 | Thrown => []
                 end);
      Replied 200 (SubmitResponse ("0x" ++ signed_hex))], Finished)
  /\ run world (submit ok {| submit_signed_transaction := "0xzz" |})
     = ([Replied 400 (ErrorBody invalidTransactionString)], Finished).
Proof.
  split.
  - eapply (proj1 (proj2 (proj2
              (submit_outcomes ok {| submit_signed_transaction := signed_hex |}
                               world eq_refl))));
      vm_compute; reflexivity.
  - apply (proj1 (submit_outcomes
                    ok {| submit_signed_transaction := "0xzz" |}
                    world eq_refl)).
    reflexivity.
Defined.

Lemma parse_outcomes_witness :
  parse ok {| parse_transaction := signed_hex; parse_signed := false |}
  = reject invalidParams
  /\ parse ok {| parse_transaction := signed_hex; parse_signed := true |}
     = Json 200 (ParseResponse [] (Some ["signer"])) Return_.
Proof.
  assert (T : exists t,
             rawTxToStacksTransaction (with0x signed_hex) = Returned t
             /\ isSignedTransaction t = true).
  { eexists. split; [vm_compute; reflexivity|reflexivity]. }
  destruct T as (t & Et & Es). split.
  - apply (proj1 (parse_outcomes
                    ok {| parse_transaction := signed_hex;
                          parse_signed := false |} t eq_refl Et)).
    cbn [parse_signed]. rewrite Es. discriminate.
  - assert (S : parse_signed {| parse_transaction := signed_hex;
                                parse_signed := true |}
                = isSignedTransaction t) by (now rewrite Es).
    destruct (proj2 (parse_outcomes
                       ok {| parse_transaction := signed_hex;
                             parse_signed := true |} t eq_refl Et) S)
      as [_ P].
    assert (B : rawTxToBaseTx (with0x signed_hex) = Returned t) by exact Et.
    destruct (P t B) as [_ Q].
    rewrite (proj2 (Q [] eq_refl) eq_refl). reflexivity.
Defined.

Lemma undeserializable_transaction_witness :
  hash ok {| signed_transaction := unknown_mode_hex |} = Throw_
  /\ combine ok {| unsigned_transaction := unknown_mode_hex;
                   signatures := [signature_by good_signature_hex] |}
     = reject invalidTransactionString.
Proof.
  eapply (proj1 (undeserializable_transaction
                   ok unknown_mode_hex (signature_by good_signature_hex) []
                   eq_refl));
    vm_compute; reflexivity.
Defined.

Lemma combine_splices_signature_only_witness :
  exists signed,
    combine ok combine_good
    = Json 200
        (CombineResponse ("0x" ++ Impl.encode_hex (Impl.serialize signed)))
        Return_
    /\ spendingCondition (auth signed)
       = Some (SingleSig "signer" 0 0
                 {| data := Some (Impl.sign signing_payload key_hex) |}).
Proof.
  destruct (combine_splices_signature_only
              ok combine_good (signature_by good_signature_hex)
              (match Impl.decode_hex unsigned_hex with
               | Returned b => b
               | Thrown => []
               end)
              {| version := 0;
                 auth := {| authType := 4;
                            spendingCondition :=
                              Some (SingleSig "signer" 0 0
                                      Impl.emptyMessageSignature) |};
                 payload := "beef" |}
              "aabeef"
              {| data := Some (Impl.sign signing_payload key_hex) |}
              Impl.emptyMessageSignature "signer" 0 0)
    as (signed & E & C & _);
    try reflexivity; try discriminate.
  exists signed. split; [exact E|exact C].
Defined.

Lemma combine_leaves_multisig_unsigned_witness :
  combine ok combine_multisig
  = Json 200 (CombineResponse multisig_hex) Return_.
Proof.
  rewrite (combine_leaves_multisig_unsigned
             ok combine_multisig (signature_by good_signature_hex)
             (match Impl.decode_hex (drop 2 multisig_hex) with
              | Returned b => b
              | Thrown => []
              end)
             {| version := 0;
                auth := {| authType := 4;
                           spendingCondition :=
                             Some (MultiSig "signer" 0 0
                                     [{| field_contents := "aa" |};
                                      {| field_contents := "bb" |}] 2) |};
                payload := "beef" |}
             "aabeef" {| data := Some (Impl.sign signing_payload key_hex) |});
    try reflexivity; discriminate.
Defined.

Lemma combine_replies_without_network_witness :
  combine ok combine_none = reject noSignatures
  /\ run world (combine ok combine_two_signatures)
     = ([Replied 400 (ErrorBody needOnlyOneSignature)], Crashed).
Proof.
  split.
  - apply (proj1 (proj2 (proj2
             (combine_replies_without_network ok combine_none world))));
      reflexivity.
  - assert (B : hexToBuffer
                  (with0x (unsigned_transaction combine_two_signatures))
                = Returned (match Impl.decode_hex unsigned_hex with
                            | Returned b => b
                            | Thrown => []
                            end)) by (vm_compute; reflexivity).
    eapply (proj1 (proj2 (proj2 (proj2
              (combine_replies_without_network
                 ok combine_two_signatures world)))) eq_refl
              _ _ _ _ _ eq_refl B).
    vm_compute. reflexivity.
Defined.

Lemma payloads_checks_before_lookup_witness :
  (exists e,
      In e [invalidOperation; invalidAmount; invalidFees; emptyPublicKey;
            invalidRecipient; invalidSender]
      /\ payloads ok {| pay_operations := transfer_operations;
                        pay_public_keys := None |} = reject e)
  \/ exists k,
       payloads ok {| pay_operations := transfer_operations;
                      pay_public_keys := None |} = GetAccount sender k.
Proof.
  destruct (payloads_checks_before_lookup
              ok {| pay_operations := transfer_operations;
                    pay_public_keys := None |} eq_refl)
    as [R|(o & pks & a & f & r & s & k & _ & _ & _ & _ & _ & K & _)].
  - left. exact R.
  - discriminate K.
Defined.

Lemma payloads_builds_transfer_witness :
  run world (payloads ok payloads_one_key)
  = ([AskedAccount sender;
      BuiltTransfer {| tt_recipient := recipient; tt_amount := 100;
                       tt_fee := 180; tt_publicKey := key_hex;
                       tt_nonce := 7 |};
      Replied 200
        (PayloadResponse
           ("0x0000" ++ Impl.repeat_char "0" 130)
           [{| sp_address := sender; sp_hex_bytes := "ccbbbeef";
               sp_signature_type := "ecdsa_recovery" |}])],
     Finished).
Proof.
  exact (payloads_builds_transfer
           ok payloads_one_key transfer_options (secp key_hex)
           "100" "180" recipient sender world {| nonce := 7 |}
           {| version := 0;
              auth := {| authType := 4;
                         spendingCondition :=
                           Some (SingleSig "signer" 7 180
                                           Impl.emptyMessageSignature) |};
              payload := "beef" |}
           eq_refl eq_refl eq_refl ltac:(discriminate) eq_refl
           ltac:(discriminate) eq_refl eq_refl ltac:(discriminate) eq_refl
           ltac:(discriminate) eq_refl eq_refl eq_refl eq_refl).
Defined.

Lemma preprocess_keeps_transfer_fields_witness :
  exists derived,
    Impl.getOptionsFromOperations transfer_operations = Some derived
    /\ sender_address derived = Some sender
    /\ amount derived = Some "100".
Proof.
  assert (E : preprocess ok preprocess_native_fee
              = Json 200
                  (PreprocessResponse
                     (set_max_fee
                        (Some "1000")
                        (apply_metadata preprocess_native_fee
                                        transfer_options))
                     [Some sender])
                  Return_)
    by (vm_compute; reflexivity).
  destruct (preprocess_keeps_transfer_fields ok preprocess_native_fee _ _ E)
    as (derived & Ho & Hs & _ & Ha & _).
  exists derived. split; [exact Ho|]. split.
  - rewrite <- Hs. reflexivity.
  - rewrite <- Ha. reflexivity.
Defined.

Lemma preprocess_max_fee_witness :
  max_fee (set_max_fee (Some "1000")
             (apply_metadata preprocess_native_fee transfer_options))
  = Some "1000"
  /\ preprocess ok preprocess_empty_fee = Throw_.
Proof.
  split.
  - assert (E : preprocess ok preprocess_native_fee
                = preprocess_response
                    (set_max_fee
                       (Some "1000")
                       (apply_metadata preprocess_native_fee
                                       transfer_options)))
      by (vm_compute; reflexivity).
    exact (proj1 (proj1 (preprocess_max_fee ok preprocess_native_fee) _ E)).
  - apply (proj2 (preprocess_max_fee ok preprocess_empty_fee));
      try reflexivity.
    discriminate.
Defined.

Lemma get_microblock_redirects_once_witness :
  Microblocks.get_microblock string string "f00d"
  = Microblocks.Redirect "/extended/v1/microblock/0xf00d"
                         Microblocks.Return_.
Proof.
  assert (P : forall s, has0xPrefix ("0x" ++ s) = true)
    by (intros [|c s]; reflexivity).
  apply (proj1 (MicroblocksProperties.get_microblock_redirects_once
                  string string "f00d" P eq_refl)).
Defined.

End RouterOnMoreSamples.

Section TokensOnSamples.

Import Tokens TokenHandler MoreSamples.

Lemma response_parsers_exclusive_witness :
  checkAndParseString (ResponseOkCV (UIntCV 6)) = None
  /\ checkAndParseOptionalString (ResponseOkCV (UIntCV 6)) = None.
Proof.
  apply (proj1 (proj2 (proj2 (proj2
           (TokenHandlerProperties.response_parsers_exclusive
              (ResponseOkCV (UIntCV 6))))))).
  discriminate.
Defined.

Lemma handleFTContract_stored_witness :
  exists md,
    fetched URI_host URI_path JSON_parse answering "ipfs://Qm/coin.json"
    = Some md
    /\ ft_name {| ft_name := Some "Coin";
                  ft_description := None;
                  ft_image_uri := Some "https://example.com/coin.png";
                  ft_image_canonical_uri := "ipfs://Qm/coin.json";
                  ft_symbol := "";
                  ft_decimals := 6;
                  ft_contract_id :=
                    "SP2J6ZY48GV1EZ5V2V5RB9MP66SW86PYKKNRV9EJ7.tokens" |}
       = Some "Coin".
Proof.
  destruct (TokenHandlerProperties.handleFTContract_stored
              URI_host URI_path JSON_parse (handler_of both_abi) answering
              {| ft_name := Some "Coin";
                 ft_description := None;
                 ft_image_uri := Some "https://example.com/coin.png";
                 ft_image_canonical_uri := "ipfs://Qm/coin.json";
                 ft_symbol := "";
                 ft_decimals := 6;
                 ft_contract_id :=
                   "SP2J6ZY48GV1EZ5V2V5RB9MP66SW86PYKKNRV9EJ7.tokens" |})
    as (cn & cu & cs & cd & uri & md & _ & Eu & _ & _ & Ep & Ef & _).
  - vm_compute. do 5 right. left. reflexivity.
  - exists md. split; [|reflexivity].
    vm_compute in Eu. injection Eu as <-.
    vm_compute in Ep. injection Ep as <-. exact Ef.
Defined.

Lemma handleFTContract_without_uri_witness :
  run silent (handleFTContract URI_host URI_path JSON_parse
                               (handler_of both_abi) Return_)
  = ([Called (txOptions (handler_of both_abi) "get-name" []);
      Called (txOptions (handler_of both_abi) "get-token-uri" []);
      Called (txOptions (handler_of both_abi) "get-symbol" []);
      Called (txOptions (handler_of both_abi) "get-decimals" [])],
     Finished).
Proof.
  exact (proj2 (TokenHandlerProperties.handleFTContract_without_uri
                  URI_host URI_path JSON_parse (handler_of both_abi) silent
                  Return_ _ _ _ _ eq_refl eq_refl eq_refl eq_refl)
               eq_refl).
Defined.

Lemma handleNFTContract_outcomes_witness :
  run silent (handleNFTContract URI_host URI_path JSON_parse
                                (handler_of both_abi) Return_)
  = ([Called (txOptions (handler_of both_abi) "get-last-token-id" [])],
     Finished).
Proof.
  exact (proj1 (TokenHandlerProperties.handleNFTContract_outcomes
                  URI_host URI_path JSON_parse (handler_of both_abi) silent)
               Return_ _ eq_refl eq_refl).
Defined.

Lemma start_handles_ft_then_nft_witness :
  called_functions
    (fst (run answering
              (start never_differ URI_host URI_path JSON_parse
                     (handler_of both_abi))))
  = ["get-name"; "get-token-uri"; "get-symbol"; "get-decimals";
     "get-last-token-id"; "get-token-uri"].
Proof.
  rewrite (TokenHandlerProperties.start_handles_ft_then_nft
             never_differ URI_host URI_path JSON_parse (handler_of both_abi)
             answering);
    [reflexivity|discriminate|discriminate|reflexivity|reflexivity].
Defined.

Lemma start_does_nothing_witness :
  start never_differ URI_host URI_path JSON_parse (handler_of plain_abi)
  = Return_.
Proof.
  apply (proj1 (TokenHandlerProperties.start_does_nothing
                  never_differ URI_host URI_path JSON_parse
                  (handler_of plain_abi))).
  reflexivity.
Defined.

Lemma isCompliant_monotone_witness :
  isCompliant never_differ both_abi FT_FUNCTIONS = true.
Proof.
  apply (proj1 (TokensMore.isCompliant_monotone never_differ)
               {| functions := FT_FUNCTIONS; fungible_tokens := [];
                  non_fungible_tokens := [] |} both_abi FT_FUNCTIONS).
  - intros f Hf. apply in_or_app. left. exact Hf.
  - reflexivity.
Defined.

End TokensOnSamples.
